(** * Inventory optimization backend: forecast engine and inventory optimizer

    A shallow embedding of [src/backend/main.py]: [get_product_data],
    [forecast_demand] and [calculate_inventory_optimization].

    Python values are modelled as the interpreter has them:
    - [int] is [Z] (unbounded);
    - [float] (and numpy's [float64]) is the kernel's binary64 [float]
      with its IEEE operations, so infinities, NaN and rounding are those of
      the running program;
    - a raised exception is the [Raise] branch of [result];
    - the numerical libraries the module calls (scipy's [norm.ppf], pandas'
      standard deviations, the statsmodels fits) are the fields of the
      [Libraries] class. *)

From Stdlib Require Import ZArith List String Bool Lia Floats DecimalString.
Import ListNotations.

Open Scope string_scope.
Open Scope Z_scope.

Set Implicit Arguments.

(** ** Exceptions and results *)

(** The [detail] payloads of the [HTTPException]s the module raises. *)
Inductive detail : Type :=
| DataUnavailableDetail
| ProductNotFoundDetail (product_id : string)
| NoValidUnitsSoldDetail (product_id : string)
| InsufficientHistoryDetail (points : Z) (model_type : string) (need : Z)
| ForecastDaysDetail
| CouldNotFitESDetail (seasonal_periods : Z) (ve : string)
| InvalidModelTypeDetail (model_type : string)
| ForecastInternalDetail (model_type : string)
| OptimizationInternalDetail (e : string).

Inductive exn : Type :=
| HTTPException (status_code : Z) (d : detail)
| ValueError (msg : string)
| OverflowError (msg : string)
| RuntimeError (msg : string).

Inductive result (A : Type) : Type :=
| Ok (a : A)
| Raise (e : exn).

Arguments Ok {A} a.
Arguments Raise {A} e.

Definition bind {A B : Type} (r : result A) (k : A -> result B) : result B :=
  match r with
  | Ok a => k a
  | Raise e => Raise e
  end.

Notation "x <- r ;; k" := (bind r (fun x => k))
  (at level 61, r at next level, right associativity).

(** [str(e)] of an exception. *)
Definition exn_message (e : exn) : string :=
  match e with
  | HTTPException _ _ => ""
  | ValueError msg | OverflowError msg | RuntimeError msg => msg
  end.

Definition string_of_Z (z : Z) : string := NilZero.string_of_int (Z.to_int z).

(** The text of each [detail], as the f-strings of the source build it. *)
Definition detail_text (d : detail) : string :=
  match d with
  | DataUnavailableDetail => "Inventory data is currently unavailable."
  | ProductNotFoundDetail p => "Product ID '" ++ p ++ "' not found in dataset."
  | NoValidUnitsSoldDetail p =>
      "Product ID '" ++ p ++ "' has no valid 'Units Sold' data for processing."
  | InsufficientHistoryDetail n m need =>
      "Insufficient historical data (" ++ string_of_Z n ++ " points) for " ++ m
      ++ ". Need at least " ++ string_of_Z need ++ "."
  | ForecastDaysDetail => "Forecast days must be a positive integer."
  | CouldNotFitESDetail sp ve =>
      "Could not fit Exponential Smoothing model, possibly due to insufficient data for seasonality="
      ++ string_of_Z sp ++ ". Error: " ++ ve
  | InvalidModelTypeDetail m => "Invalid model type specified: " ++ m
  | ForecastInternalDetail m =>
      "An internal error occurred during " ++ m ++ " forecasting. Please check server logs."
  | OptimizationInternalDetail e =>
      "An internal error occurred while calculating optimization metrics: " ++ e
  end.

(** The error taxonomy of the specification, read off the exceptions of the
    code: the status code decides, and among the 400s the detail. *)
Inductive error_kind : Type :=
| DataUnavailable | ProductNotFound | NoData | InvalidParameter
| InsufficientData | InternalError.

Definition kind_of (e : exn) : error_kind :=
  match e with
  | HTTPException 503 _ => DataUnavailable
  | HTTPException 404 _ => ProductNotFound
  | HTTPException 400 (NoValidUnitsSoldDetail _) => NoData
  | HTTPException 400 (InsufficientHistoryDetail _ _ _) => InsufficientData
  | HTTPException 400 _ => InvalidParameter
  | _ => InternalError
  end.

(** [raises r k]: the call failed, with an error of kind [k]. *)
Definition raises {A : Type} (r : result A) (k : error_kind) : Prop :=
  match r with
  | Ok _ => False
  | Raise e => kind_of e = k
  end.

(** ** Python's numeric primitives on binary64 *)

Module Py.

(** The signed mantissa of a finite float. *)
Definition SFint (s : bool) (m : positive) : Z := if s then Z.neg m else Z.pos m.

(** [math.ceil(x)] for a float [x]: an [int], or the interpreter's error. *)
Definition math_ceil (x : float) : result Z :=
  match Prim2SF x with
  | S754_nan => Raise (ValueError "cannot convert float NaN to integer")
  | S754_infinity _ => Raise (OverflowError "cannot convert float infinity to integer")
  | S754_zero _ => Ok 0
  | S754_finite s m e =>
      Ok (if 0 <=? e then SFint s m * 2 ^ e else - ((- SFint s m) / 2 ^ (- e)))
  end.

(** [int(x)] for a float [x]: truncation towards zero. *)
Definition int_of_float (x : float) : result Z :=
  match Prim2SF x with
  | S754_nan => Raise (ValueError "cannot convert float NaN to integer")
  | S754_infinity _ => Raise (OverflowError "cannot convert float infinity to integer")
  | S754_zero _ => Ok 0
  | S754_finite s m e =>
      Ok (if 0 <=? e then SFint s m * 2 ^ e else Z.quot (SFint s m) (2 ^ (- e)))
  end.

(** The binary64 nearest to an integer (ties to even); infinite when the
    integer is out of range. *)
Definition Z2SF (n : Z) : spec_float := binary_normalize prec emax n 0 false.

Definition Z2F (n : Z) : float := SF2Prim (Z2SF n).

(** [float(n)] for an [int]. *)
Definition float_of_int (n : Z) : result float :=
  match Z2SF n with
  | S754_infinity _ => Raise (OverflowError "int too large to convert to float")
  | sf => Ok (SF2Prim sf)
  end.

(** [math.sqrt(x)] for a float. *)
Definition math_sqrt (x : float) : result float :=
  if (x <? 0)%float then Raise (ValueError "math domain error")
  else Ok (PrimFloat.sqrt x).

(** [math.sqrt(n)] for an [int]: the argument is converted first. *)
Definition math_sqrt_int (n : Z) : result float :=
  x <- float_of_int n ;; math_sqrt x.

(** [sum(l)] for a list of floats: the accumulator starts at [0] and the
    entries are added from left to right. *)
Definition sum (l : list float) : float :=
  fold_left PrimFloat.add l 0%float.

(** [l[:k]]. *)
Definition slice_to {A : Type} (l : list A) (k : Z) : list A :=
  if k <? 0 then firstn (Z.to_nat (Z.of_nat (List.length l) + k)) l
  else firstn (Z.to_nat k) l.

Definition len {A : Type} (l : list A) : Z := Z.of_nat (List.length l).

(** [pd.isna(x)] on a scalar. *)
Definition isna (x : float) : bool := is_nan x.

(** Rounding half to even of [m / 2^k], for [k > 0]. *)
Definition round_half_even (m : Z) (k : Z) : Z :=
  let q := m / 2 ^ k in
  let r := m mod 2 ^ k in
  match 2 * r ?= 2 ^ k with
  | Lt => q
  | Gt => q + 1
  | Eq => if Z.even q then q else q + 1
  end.

(** [Series.round()] on one entry: the nearest integral float, ties to
    even, the sign kept. *)
Definition np_round (x : float) : float :=
  match Prim2SF x with
  | S754_finite s m e =>
      if 0 <=? e then x
      else
        let n := round_half_even (Z.pos m) (- e) in
        SF2Prim (binary_normalize prec emax (if s then - n else n) 0 s)
  | _ => x
  end.

(** Neither infinite nor NaN ([math.isfinite]). *)
Definition isfinite (x : float) : bool :=
  match Prim2SF x with
  | S754_zero _ | S754_finite _ _ _ => true
  | _ => false
  end.

(** The integer a float is, when it is one ([float.is_integer]). *)
Definition integer_value (x : float) : option Z :=
  match Prim2SF x with
  | S754_zero _ => Some 0
  | S754_finite s m e =>
      if 0 <=? e then Some (SFint s m * 2 ^ e)
      else if Z.pos m mod 2 ^ (- e) =? 0 then Some (SFint s m / 2 ^ (- e))
      else None
  | _ => None
  end.

End Py.

(** ** Classes of binary64 values *)

Module SF.

(** A float that is not below zero: a zero of either sign, a positive
    number, or NaN. *)
Definition not_negative (sf : spec_float) : Prop :=
  match sf with
  | S754_finite true _ _ | S754_infinity true => False
  | _ => True
  end.

(** A float that is above zero. *)
Definition positive_sf (sf : spec_float) : Prop :=
  match sf with
  | S754_finite false _ _ | S754_infinity false => True
  | _ => False
  end.

(** The mantissa of the float an integer below [2^53] converts to. *)
Definition align53 (p : positive) : positive :=
  match (53 - Z.pos (digits2_pos p))%Z with
  | Z.pos d => Pos.iter xO p d
  | _ => p
  end.

End SF.

(** ** The libraries the module calls *)

(** What the module takes from scipy, pandas and statsmodels. A fit either
    returns its projections or raises. *)
Class Libraries : Type := {
  (** [scipy.stats.norm.ppf] *)
  norm_ppf : float -> float;
  (** [s.rolling(window=w).std().iloc[-1]] *)
  rolling_std_last : Z -> list float -> float;
  (** [s.std(skipna=True)] *)
  series_std : list float -> float;
  (** [ARIMA(ts, order=(5,1,0)).fit().forecast(steps)] *)
  arima_forecast : list float -> Z -> result (list float);
  (** [ExponentialSmoothing(ts, trend="add", seasonal="add",
      seasonal_periods, initialization_method='estimated').fit().forecast(steps)] *)
  exp_smoothing_forecast : list float -> Z -> Z -> result (list float)
}.


(** ** The data frame *)

(** One row of the inventory data set; a missing number is NaN, and [Date]
    is a day number. *)
Record row : Type := {
  Date : Z;
  Product_ID : string;
  Inventory_Level : float;
  Units_Sold : float
}.

Definition DataFrame : Type := list row.

Definition ROLLING_WINDOW_DAYS : Z := 90.

(** [s.resample('D').sum()] of a date-indexed series: one entry per calendar
    day from the first date to the last, the sum of that day's values. *)
Definition resample_D_sum (s : list (Z * float)) : list float :=
  match s with
  | [] => []
  | (d0, _) :: _ =>
      let lo := fold_left Z.min (map fst s) d0 in
      let hi := fold_left Z.max (map fst s) d0 in
      map (fun i => Py.sum (map snd (filter (fun p => fst p =? lo + Z.of_nat i) s)))
          (seq 0 (Z.to_nat (hi - lo + 1)))
  end.

Definition units_sold_series (product_data : DataFrame) : list (Z * float) :=
  map (fun r => (Date r, Units_Sold r)) product_data.

(** [get_product_data], over the loaded data frame [df] (rows in date
    order, as the loader sorts them). The daily sums have no missing entry,
    so [fillna(0)] changes nothing. *)
Definition get_product_data (df : DataFrame) (product_id : string)
  : result (DataFrame * list float) :=
  match df with
  | [] => Raise (HTTPException 503 DataUnavailableDetail)
  | _ =>
    let product_data := filter (fun r => String.eqb (Product_ID r) product_id) df in
    match product_data with
    | [] => Raise (HTTPException 404 (ProductNotFoundDetail product_id))
    | _ =>
      let product_data := filter (fun r => negb (Py.isna (Units_Sold r))) product_data in
      match product_data with
      | [] => Raise (HTTPException 400 (NoValidUnitsSoldDetail product_id))
      | _ =>
        let ts_data := resample_D_sum (units_sold_series product_data) in
        Ok (product_data, ts_data)
      end
    end
  end.

(** ** The forecast engine *)

(** Line 94: the least number of observations a model is fitted on. *)
Definition min_data_points (model_type : string) (seasonal_periods : Z) : Z :=
  Z.max 10 (if String.eqb model_type "ExponentialSmoothing"
            then 2 * seasonal_periods else 10).

(** [forecast[forecast < 0] = 0] on one entry. *)
Definition clip_negative (x : float) : float :=
  if (x <? 0)%float then 0%float else x.

Section Engines.

Context {L : Libraries}.

(** The body of the [try] block of [forecast_demand]. *)
Definition fit_and_project (ts_data : list float) (model_type : string)
    (forecast_days seasonal_periods : Z) : result (list float) :=
  forecast <-
    (if String.eqb model_type "ARIMA" then
       arima_forecast ts_data forecast_days
     else if String.eqb model_type "ExponentialSmoothing" then
       match exp_smoothing_forecast ts_data seasonal_periods forecast_days with
       | Raise (ValueError ve) =>
           Raise (HTTPException 400 (CouldNotFitESDetail seasonal_periods ve))
       | r => r
       end
     else Raise (HTTPException 400 (InvalidModelTypeDetail model_type))) ;;
  Ok (map Py.np_round (map clip_negative forecast)).

Definition forecast_demand (ts_data : list float) (model_type : string)
    (forecast_days seasonal_periods : Z) : result (list float) :=
  if Py.len ts_data <? min_data_points model_type seasonal_periods then
    Raise (HTTPException 400
             (InsufficientHistoryDetail (Py.len ts_data) model_type
                (min_data_points model_type seasonal_periods)))
  else if forecast_days <=? 0 then
    Raise (HTTPException 400 ForecastDaysDetail)
  else
    match fit_and_project ts_data model_type forecast_days seasonal_periods with
    | Ok forecast => Ok forecast
    | Raise _ => Raise (HTTPException 500 (ForecastInternalDetail model_type))
    end.

(** ** The inventory optimizer *)

(** Lines 143-154: the demand variability and the method that gave it. *)
Definition demand_variability (daily_sales : list float) : float * string :=
  let '(std_dev_demand, variability_method) :=
    if ROLLING_WINDOW_DAYS <=? Py.len daily_sales then
      (rolling_std_last ROLLING_WINDOW_DAYS daily_sales,
       string_of_Z ROLLING_WINDOW_DAYS ++ "-Day Rolling Std Dev")
    else if 2 <=? Py.len daily_sales then
      (series_std daily_sales, "Overall Std Dev (Insufficient Rolling Data)")
    else (0%float, "N/A (Insufficient Data)") in
  (if Py.isna std_dev_demand then 0%float else std_dev_demand, variability_method).

(** Lines 157-160. *)
Definition compute_safety_stock (service_level : float) (lead_time_days : Z)
    (std_dev_demand : float) : result Z :=
  let z_score := norm_ppf service_level in
  root <- Py.math_sqrt_int lead_time_days ;;
  let safety_stock := (z_score * root * std_dev_demand)%float in
  if (0 <? safety_stock)%float then Py.math_ceil safety_stock else Ok 0.

End Engines.

(** Lines 162-166. *)
Definition compute_ddlt (forecast_values : list float) (lead_time_days : Z) : result Z :=
  let actual_lead_time_forecast_days := Z.min (Py.len forecast_values) lead_time_days in
  let ddlt := Py.sum (Py.slice_to forecast_values actual_lead_time_forecast_days) in
  Py.math_ceil ddlt.

(** Lines 170-178. *)
Definition compute_annual_demand (forecast_values : list float) : float * string :=
  if 0 <? Py.len forecast_values then
    let avg_forecasted_daily_demand :=
      (Py.sum forecast_values / Py.Z2F (Py.len forecast_values))%float in
    ((avg_forecasted_daily_demand * 365)%float, "Forecasted Average")
  else (0%float, "N/A (Empty Forecast)").

(** Lines 180-184. *)
Definition compute_eoq (annual_demand holding_cost_per_unit_per_year
                        ordering_cost_per_order : float) : result Z :=
  if (annual_demand <=? 0)%float || (holding_cost_per_unit_per_year <=? 0)%float
     || (ordering_cost_per_order <? 0)%float
  then Ok 0
  else
    eoq_raw <- Py.math_sqrt ((2 * annual_demand * ordering_cost_per_order)
                             / holding_cost_per_unit_per_year)%float ;;
    Py.math_ceil eoq_raw.

(** Lines 187-197. *)
Definition compute_current_inventory (product_hist_data : DataFrame) : result Z :=
  match rev product_hist_data with
  | [] => Ok 0
  | latest_entry :: _ =>
      let current_inventory := Inventory_Level latest_entry in
      if Py.isna current_inventory then Ok 0 else Py.int_of_float current_inventory
  end.

(** The suggestions of lines 199-208, before they are put into words. *)
Inductive suggestion_kind : Type :=
| MaintainStock
| OrderUnits (order_qty current_inventory reorder_point : Z)
| ReviewParameters
| PotentialOverstock (current_inventory reorder_point safety_stock : Z).

Definition suggestion_text (s : suggestion_kind) : string :=
  match s with
  | MaintainStock => "Maintain current stock."
  | OrderUnits q c r =>
      "Order " ++ string_of_Z q ++ " units (Current: " ++ string_of_Z c
      ++ ", ROP: " ++ string_of_Z r ++ ")."
  | ReviewParameters => "Maintain current stock (Consider reviewing EOQ parameters)."
  | PotentialOverstock c r s =>
      "Potential overstock (Current: " ++ string_of_Z c ++ ", ROP: " ++ string_of_Z r
      ++ ", SS: " ++ string_of_Z s ++ ")."
  end.

(** Lines 199-208. *)
Definition suggest (current_inventory reorder_point eoq safety_stock : Z)
  : suggestion_kind :=
  if current_inventory <=? reorder_point then
    let order_qty :=
      if 0 <? eoq then eoq else reorder_point + safety_stock - current_inventory in
    let order_qty := Z.max 0 order_qty in
    if 0 <? order_qty then OrderUnits order_qty current_inventory reorder_point
    else ReviewParameters
  else if reorder_point + (if 0 <? eoq then eoq else safety_stock) <? current_inventory
  then PotentialOverstock current_inventory reorder_point safety_stock
  else MaintainStock.

Definition is_overstock (s : suggestion_kind) : bool :=
  match s with
  | PotentialOverstock _ _ _ => true
  | _ => false
  end.

Record Assumptions : Type := {
  lead_time_days_used : Z;
  service_level_used : float;
  holding_cost_used : float;
  ordering_cost_used : float;
  demand_variability_method : string;
  annual_demand_method : string
}.

(** The dictionary [calculate_inventory_optimization] returns. Its entry
    [service_level_percent] is the service level rounded for display; the
    record keeps the service level it is computed from. *)
Record InventoryPolicy : Type := {
  product_id : string;
  current_inventory : Z;
  safety_stock : Z;
  reorder_point : Z;
  economic_order_quantity : Z;
  demand_during_lead_time : Z;
  suggestion : string;
  assumptions_used : Assumptions
}.

Section OptimizerBody.

Context {L : Libraries}.

(** The body of the [try] block of [calculate_inventory_optimization]. *)
Definition optimization_body (df : DataFrame) (pid : string)
    (forecast_values : list float) (lead_time_days : Z)
    (service_level holding_cost_per_unit_per_year ordering_cost_per_order : float)
  : result InventoryPolicy :=
  data <- get_product_data df pid ;;
  let product_hist_data := fst data in
  let daily_sales := resample_D_sum (units_sold_series product_hist_data) in
  let '(std_dev_demand, variability_method) := demand_variability daily_sales in
  ss <- compute_safety_stock service_level lead_time_days std_dev_demand ;;
  ddlt <- compute_ddlt forecast_values lead_time_days ;;
  let rop := ddlt + ss in
  let '(annual_demand, annual_method) := compute_annual_demand forecast_values in
  eoq <- compute_eoq annual_demand holding_cost_per_unit_per_year
                     ordering_cost_per_order ;;
  cur <- compute_current_inventory product_hist_data ;;
  Ok {| product_id := pid;
        current_inventory := cur;
        safety_stock := ss;
        reorder_point := rop;
        economic_order_quantity := eoq;
        demand_during_lead_time := ddlt;
        suggestion := suggestion_text (suggest cur rop eoq ss);
        assumptions_used :=
          {| lead_time_days_used := lead_time_days;
             service_level_used := service_level;
             holding_cost_used := holding_cost_per_unit_per_year;
             ordering_cost_used := ordering_cost_per_order;
             demand_variability_method := variability_method;
             annual_demand_method := annual_method |} |}.

(** The handlers: an [HTTPException] passes, anything else becomes a 500. *)
Definition calculate_inventory_optimization (df : DataFrame) (pid : string)
    (forecast_values : list float) (lead_time_days : Z)
    (service_level holding_cost_per_unit_per_year ordering_cost_per_order : float)
  : result InventoryPolicy :=
  match optimization_body df pid forecast_values lead_time_days service_level
                          holding_cost_per_unit_per_year ordering_cost_per_order with
  | Ok policy => Ok policy
  | Raise (HTTPException c d) => Raise (HTTPException c d)
  | Raise e => Raise (HTTPException 500 (OptimizationInternalDetail (exn_message e)))
  end.

End OptimizerBody.

(** ** The endpoints *)

(** What a client receives: the body an endpoint returns, or the status
    code and detail of the error answered instead. *)
Inductive response (A : Type) : Type :=
| Success (body : A)
| Failure (status_code : Z) (detail : string).

Arguments Success {A} body.
Arguments Failure {A} status_code detail.

(** The two handlers every endpoint ends with: an [HTTPException] is raised
    again as it is, any other exception becomes a 500 with the endpoint's own
    message. *)
Definition respond {A : Type} (r : result A) (unexpected : string) : response A :=
  match r with
  | Ok body => Success body
  | Raise (HTTPException status_code d) => Failure status_code (detail_text d)
  | Raise _ => Failure 500 unexpected
  end.

(** [Series.unique()]: the distinct values, in the order of their first
    appearance. *)
Fixpoint unique_from (seen l : list string) : list string :=
  match l with
  | [] => []
  | x :: l' =>
      if existsb (String.eqb x) seen then unique_from seen l'
      else x :: unique_from (x :: seen) l'
  end.

Definition unique (l : list string) : list string := unique_from [] l.

(** [get_product_ids] (lines 235-247). Every row of the model carries a
    product id, so [dropna()] keeps them all. *)
Definition get_product_ids (df : DataFrame) : response (list string) :=
  match df with
  | [] => Failure 503 (detail_text DataUnavailableDetail)
  | _ =>
      respond (Ok (unique (map Product_ID df)))
              "An error occurred while retrieving product IDs."
  end.

(** The body [get_forecast] returns. *)
Record ForecastResponse : Type := {
  forecast_product_id : string;
  forecast_model_type : string;
  forecast_days_asked : Z;
  forecast_seasonal_periods_used : option Z;
  forecast_values_returned : list float
}.

(** The body [get_optimization_metrics] returns: the policy and the three
    entries added to it. *)
Record OptimizationResponse : Type := {
  optimization_policy : InventoryPolicy;
  model_type_used : string;
  forecast_days_used : Z;
  seasonal_periods_used : option Z
}.

(** [seasonal_periods if model_type == "ExponentialSmoothing" else None] *)
Definition seasonal_periods_if_used (model_type : string) (seasonal_periods : Z)
  : option Z :=
  if String.eqb model_type "ExponentialSmoothing" then Some seasonal_periods else None.

(** ** The constraints of the query parameters

    The signatures of the two endpoints that take parameters declare
    constraints ([Query(30, gt=0)] and the like). The framework checks them
    before it calls the function and answers a request that violates one with
    status 422; the model keeps, as the detail of that answer, the names of
    the offending parameters in the order of the signature. The model type is
    a plain string: its [enum] only documents it. *)

Definition violations (checks : list (string * bool)) : list string :=
  map fst (filter (fun c => negb (snd c)) checks).

Definition unprocessable {A : Type} (names : list string) : response A :=
  Failure 422 (String.concat ", " names).

(** Lines 254-255. *)
Definition forecast_query_checks (forecast_days seasonal_periods : Z)
  : list (string * bool) :=
  [ ("forecast_days", 0 <? forecast_days);
    ("seasonal_periods", 1 <? seasonal_periods) ].

(** Lines 286-291. *)
Definition optimization_query_checks (lead_time_days : Z)
    (service_level holding_cost ordering_cost : float)
    (forecast_days seasonal_periods : Z) : list (string * bool) :=
  [ ("lead_time_days", 0 <? lead_time_days);
    ("service_level", (0 <=? service_level)%float && (service_level <=? 1)%float);
    ("holding_cost", (0 <=? holding_cost)%float);
    ("ordering_cost", (0 <=? ordering_cost)%float);
    ("forecast_days", 0 <? forecast_days);
    ("seasonal_periods", 1 <? seasonal_periods) ].

Section Endpoints.

Context {L : Libraries}.

(** What the exponential-smoothing fit is relied on for, as the
    autoregressive one. *)
Definition exp_smoothing_contract : Prop :=
  forall ts seasonal_periods steps projections,
    0 < steps ->
    exp_smoothing_forecast ts seasonal_periods steps = Ok projections ->
    Py.len projections = steps
    /\ Forall (fun v => Py.isfinite v = true) projections.

(** The body of [get_forecast] (lines 257-279). *)
Definition forecast_handler (df : DataFrame) (pid model_type : string)
    (forecast_days seasonal_periods : Z) : response ForecastResponse :=
  respond
    (data <- get_product_data df pid ;;
     let ts_data := snd data in
     forecast <- forecast_demand ts_data model_type forecast_days seasonal_periods ;;
     Ok {| forecast_product_id := pid;
           forecast_model_type := model_type;
           forecast_days_asked := forecast_days;
           forecast_seasonal_periods_used :=
             seasonal_periods_if_used model_type seasonal_periods;
           forecast_values_returned := forecast |})
    "An unexpected error occurred while generating the forecast.".

(** [get_forecast] (lines 250-279) as it is served: the constraints of the
    signature first, then the body. *)
Definition get_forecast (df : DataFrame) (pid model_type : string)
    (forecast_days seasonal_periods : Z) : response ForecastResponse :=
  match violations (forecast_query_checks forecast_days seasonal_periods) with
  | [] => forecast_handler df pid model_type forecast_days seasonal_periods
  | names => unprocessable names
  end.

(** The body of [get_optimization_metrics] (lines 293-326). *)
Definition optimization_handler (df : DataFrame) (pid model_type : string)
    (lead_time_days : Z) (service_level holding_cost ordering_cost : float)
    (forecast_days seasonal_periods : Z) : response OptimizationResponse :=
  respond
    (data <- get_product_data df pid ;;
     let ts_data := snd data in
     forecast_values <-
       forecast_demand ts_data model_type forecast_days seasonal_periods ;;
     optimization_data <-
       calculate_inventory_optimization df pid forecast_values lead_time_days
         service_level holding_cost ordering_cost ;;
     Ok {| optimization_policy := optimization_data;
           model_type_used := model_type;
           forecast_days_used := forecast_days;
           seasonal_periods_used :=
             seasonal_periods_if_used model_type seasonal_periods |})
    "An unexpected error occurred while calculating optimization metrics.".

(** [get_optimization_metrics] (lines 282-326) as it is served. *)
Definition get_optimization_metrics (df : DataFrame) (pid model_type : string)
    (lead_time_days : Z) (service_level holding_cost ordering_cost : float)
    (forecast_days seasonal_periods : Z) : response OptimizationResponse :=
  match violations (optimization_query_checks lead_time_days service_level
                      holding_cost ordering_cost forecast_days seasonal_periods) with
  | [] => optimization_handler df pid model_type lead_time_days service_level
            holding_cost ordering_cost forecast_days seasonal_periods
  | names => unprocessable names
  end.

End Endpoints.

(** A float that is not above zero: a zero of either sign, a negative
    number, or NaN. *)
Definition not_positive (sf : spec_float) : Prop :=
  match sf with
  | S754_finite false _ _ | S754_infinity false => False
  | _ => True
  end.

(** The rows [get_product_data] keeps. *)
Definition usable_row (pid : string) (r : row) : bool :=
  String.eqb (Product_ID r) pid && negb (Py.isna (Units_Sold r)).

(** The exceptions that are answered as they are. *)
Definition is_http_exception (e : exn) : bool :=
  match e with
  | HTTPException _ _ => true
  | _ => false
  end.

(** The exceptions of the interpreter's numeric primitives used by the
    optimizer: [math.sqrt], [float(int)] inside it, [math.ceil] and [int]. *)
Definition numeric_errors : list exn :=
  [ ValueError "math domain error";
    OverflowError "int too large to convert to float";
    ValueError "cannot convert float NaN to integer";
    OverflowError "cannot convert float infinity to integer" ].

(** The suggestions that place an order. *)
Definition is_order (s : suggestion_kind) : bool :=
  match s with
  | OrderUnits _ _ _ => true
  | _ => false
  end.

(** ** An executable instance of the libraries

    It runs the engines on concrete inputs. The quantile function is tabulated
    at the service levels the examples use, the standard deviation is the
    two-pass sample formula, and both fits project the mean of the history. *)

Module Bench.

Definition ppf (p : float) : float :=
  if (p =? 1)%float then infinity
  else if (p =? 0)%float then neg_infinity
  else if (p =? 0.5)%float then 0%float
  else if (p =? 0x1.e666666666666p-1)%float then 0x1.a515209676abbp+0%float
  else nan.

Definition mean (l : list float) : float :=
  (Py.sum l / Py.Z2F (Py.len l))%float.

Definition sample_std (l : list float) : float :=
  let m := mean l in
  PrimFloat.sqrt
    (Py.sum (map (fun x => ((x - m) * (x - m))%float) l) / Py.Z2F (Py.len l - 1))%float.

Definition rolling_std (w : Z) (l : list float) : float :=
  sample_std (skipn (List.length l - Z.to_nat w) l).

Definition mean_projection (ts : list float) (steps : Z) : result (list float) :=
  let v := mean ts in
  if Py.isfinite v then Ok (repeat v (Z.to_nat steps))
  else Raise (RuntimeError "LinAlgError").

Definition seasonal_projection (ts : list float) (seasonal_periods steps : Z)
  : result (list float) :=
  if seasonal_periods <=? 1 then Raise (ValueError "seasonal_periods must be larger than 1.")
  else mean_projection ts steps.

Definition libraries : Libraries :=
  {| norm_ppf := ppf;
     rolling_std_last := rolling_std;
     series_std := sample_std;
     arima_forecast := mean_projection;
     exp_smoothing_forecast := seasonal_projection |}.


(** A history of [n] consecutive days of one product, [units] sold a day,
    with [level] on hand. *)
Definition constant_history (pid : string) (n : nat) (units level : float) : DataFrame :=
  map (fun i => {| Date := Z.of_nat i; Product_ID := pid;
                   Inventory_Level := level; Units_Sold := units |}) (seq 0 n).

(** A history alternating between [low] and [high] units a day. *)
Definition alternating_history (pid : string) (n : nat) (low high level : float)
  : DataFrame :=
  map (fun i => {| Date := Z.of_nat i; Product_ID := pid;
                   Inventory_Level := level;
                   Units_Sold := if Nat.even i then low else high |}) (seq 0 n).

(** The constant-demand scenario of the specification. *)
Definition scenario_history : DataFrame := constant_history "P1" 100 10 200.

Definition scenario_forecast : list float := repeat 10%float 30.

Definition scenario_policy : InventoryPolicy :=
  {| product_id := "P1";
     current_inventory := 200;
     safety_stock := 0;
     reorder_point := 70;
     economic_order_quantity := 494;
     demand_during_lead_time := 70;
     suggestion := "Maintain current stock.";
     assumptions_used :=
       {| lead_time_days_used := 7;
          service_level_used := 0x1.e666666666666p-1;
          holding_cost_used := 1.5;
          ordering_cost_used := 50;
          demand_variability_method := "90-Day Rolling Std Dev";
          annual_demand_method := "Forecasted Average" |} |}.

End Bench.

(** ** Runs of the executable instance *)

Module Runs.

(** The scenario with a lead time of 0. *)
Definition zero_lead_policy : InventoryPolicy :=
  {| product_id := "P1";
     current_inventory := 200;
     safety_stock := 0;
     reorder_point := 0;
     economic_order_quantity := 494;
     demand_during_lead_time := 0;
     suggestion := "Maintain current stock.";
     assumptions_used :=
       {| lead_time_days_used := 0;
          service_level_used := 0x1.e666666666666p-1;
          holding_cost_used := 1.5;
          ordering_cost_used := 50;
          demand_variability_method := "90-Day Rolling Std Dev";
          annual_demand_method := "Forecasted Average" |} |}.

(** The scenario with an empty forecast. *)
Definition no_forecast_policy : InventoryPolicy :=
  {| product_id := "P1";
     current_inventory := 200;
     safety_stock := 0;
     reorder_point := 0;
     economic_order_quantity := 0;
     demand_during_lead_time := 0;
     suggestion := "Potential overstock (Current: 200, ROP: 0, SS: 0).";
     assumptions_used :=
       {| lead_time_days_used := 7;
          service_level_used := 0x1.e666666666666p-1;
          holding_cost_used := 1.5;
          ordering_cost_used := 50;
          demand_variability_method := "90-Day Rolling Std Dev";
          annual_demand_method := "N/A (Empty Forecast)" |} |}.

(** The answer of the optimization endpoint on the scenario. *)
Definition scenario_response : OptimizationResponse :=
  {| optimization_policy := Bench.scenario_policy;
     model_type_used := "ARIMA";
     forecast_days_used := 30;
     seasonal_periods_used := None |}.

End Runs.

(** * Facts about binary64 arithmetic *)

Module FloatFacts.

Import SF.

(** The float specification is written with the core library's integer
    operations; they are those of [Z]. *)
Ltac zdef :=
  change IntDef.Z.sub with Z.sub in *;
  change IntDef.Z.add with Z.add in *;
  change IntDef.Z.mul with Z.mul in *;
  change IntDef.Z.opp with Z.opp in *;
  change IntDef.Z.leb with Z.leb in *;
  change IntDef.Z.eqb with Z.eqb in *;
  change IntDef.Z.max with Z.max in *;
  change IntDef.Z.min with Z.min in *.

Lemma Prim2SF_zero : Prim2SF 0%float = S754_zero false.
Proof. reflexivity. Qed.

Lemma ltb_zero_r (x : float) : (x <? 0)%float = SFltb (Prim2SF x) (S754_zero false).
Proof. now rewrite ltb_spec, Prim2SF_zero. Qed.

Lemma ltb_zero_l (x : float) : (0 <? x)%float = SFltb (S754_zero false) (Prim2SF x).
Proof. now rewrite ltb_spec, Prim2SF_zero. Qed.

Lemma leb_zero_r (x : float) : (x <=? 0)%float = SFleb (Prim2SF x) (S754_zero false).
Proof. now rewrite leb_spec, Prim2SF_zero. Qed.

Lemma leb_zero_l (x : float) : (0 <=? x)%float = SFleb (S754_zero false) (Prim2SF x).
Proof. now rewrite leb_spec, Prim2SF_zero. Qed.

Lemma not_negative_ltb (x : float) :
  not_negative (Prim2SF x) <-> (x <? 0)%float = false.
Proof.
  rewrite ltb_zero_r.
  destruct (Prim2SF x) as [s|s| |s m e]; try destruct s; cbv; intuition congruence.
Qed.

Lemma positive_ltb (x : float) :
  positive_sf (Prim2SF x) <-> (0 <? x)%float = true.
Proof.
  rewrite ltb_zero_l.
  destruct (Prim2SF x) as [s|s| |s m e]; try destruct s; cbv; intuition congruence.
Qed.

Lemma leb_zero_not_negative (x : float) :
  (0 <=? x)%float = true -> not_negative (Prim2SF x).
Proof.
  rewrite leb_zero_l.
  destruct (Prim2SF x) as [s|s| |s m e]; try destruct s; cbv; intuition congruence.
Qed.

Lemma positive_not_negative (sf : spec_float) : positive_sf sf -> not_negative sf.
Proof. destruct sf as [s|s| |s m e]; try destruct s; simpl; tauto. Qed.

Lemma mul_zero_not_positive (x : float) : (0 <? x * 0)%float = false.
Proof.
  rewrite ltb_zero_l, mul_spec, Prim2SF_zero.
  destruct (Prim2SF x) as [s|s| |s m e]; try destruct s; reflexivity.
Qed.

(** Rounding keeps the sign it is given. *)
Lemma binary_round_aux_sign (s : bool) (m e : Z) (l : location) :
  match binary_round_aux prec emax s m e l with
  | S754_zero s' | S754_infinity s' | S754_finite s' _ _ => s' = s
  | S754_nan => True
  end.
Proof.
  unfold binary_round_aux.
  destruct (shr_fexp prec emax m e l) as [mrs' e'].
  destruct (shr_fexp _ _ _ _ _) as [mrs'' e''].
  destruct (shr_m mrs''); auto.
  destruct (IntDef.Z.leb _ _); auto.
Qed.

Lemma binary_round_aux_not_negative (m e : Z) (l : location) :
  not_negative (binary_round_aux prec emax false m e l).
Proof.
  pose proof (binary_round_aux_sign false m e l) as H.
  destruct (binary_round_aux prec emax false m e l); subst; simpl; exact I.
Qed.

Lemma binary_round_not_negative (m : positive) (e : Z) :
  not_negative (binary_round prec emax false m e).
Proof.
  unfold binary_round.
  destruct (shl_align _ _ _) as [mz ez].
  apply binary_round_aux_not_negative.
Qed.

Lemma SFadd_not_negative (x y : spec_float) :
  not_negative x -> not_negative y -> not_negative (SFadd prec emax x y).
Proof.
  destruct x as [sx|sx| |sx mx ex], y as [sy|sy| |sy my ey];
    try destruct sx; try destruct sy; simpl; try tauto.
  intros _ _. apply binary_round_not_negative.
Qed.

Lemma SFmul_not_negative (x y : spec_float) :
  not_negative x -> not_negative y -> not_negative (SFmul prec emax x y).
Proof.
  destruct x as [sx|sx| |sx mx ex], y as [sy|sy| |sy my ey];
    try destruct sx; try destruct sy; simpl; try tauto.
  intros _ _. apply binary_round_aux_not_negative.
Qed.

Lemma SFdiv_not_negative (x y : spec_float) :
  not_negative x -> positive_sf y -> not_negative (SFdiv prec emax x y).
Proof.
  destruct x as [sx|sx| |sx mx ex], y as [sy|sy| |sy my ey];
    try destruct sx; try destruct sy; simpl; try tauto.
  intros _ _.
  destruct (SFdiv_core_binary _ _ _ _ _ _) as [[mz ez] lz].
  apply binary_round_aux_not_negative.
Qed.

Lemma SFsqrt_not_negative (x : spec_float) : not_negative (SFsqrt prec emax x).
Proof.
  destruct x as [sx|sx| |sx mx ex]; try destruct sx; simpl; try tauto.
  destruct (SFsqrt_core_binary _ _ _ _) as [[mz ez] lz].
  apply binary_round_aux_not_negative.
Qed.



(** ** Conversions to integers *)

Lemma ceil_neg_div (m : positive) (k : Z) : 0 < k -> 1 <= - (Z.neg m / k).
Proof.
  intros Hk.
  assert (Z.neg m / k < 0) by (apply Z.div_lt_upper_bound; lia).
  lia.
Qed.

Lemma ceil_value_positive (m : positive) (e : Z) :
  1 <= (if 0 <=? e then Py.SFint false m * 2 ^ e
        else - ((- Py.SFint false m) / 2 ^ (- e))).
Proof.
  unfold Py.SFint.
  destruct (0 <=? e) eqn:He.
  - apply Z.leb_le in He.
    assert (0 < 2 ^ e) by (apply Z.pow_pos_nonneg; lia). nia.
  - apply Z.leb_gt in He.
    assert (0 < 2 ^ (- e)) by (apply Z.pow_pos_nonneg; lia).
    now apply ceil_neg_div.
Qed.

Lemma math_ceil_not_negative (x : float) (n : Z) :
  not_negative (Prim2SF x) -> Py.math_ceil x = Ok n -> 0 <= n.
Proof.
  unfold Py.math_ceil.
  destruct (Prim2SF x) as [s|s| |s m e]; try discriminate.
  - intros _ H. injection H as <-. lia.
  - destruct s; [intros []|]. intros _ H. injection H as <-.
    apply Z.le_trans with 1; [lia|apply ceil_value_positive].
Qed.

Lemma math_ceil_positive (x : float) (n : Z) :
  (0 <? x)%float = true -> Py.math_ceil x = Ok n -> 1 <= n.
Proof.
  intros Hx. apply positive_ltb in Hx. revert Hx.
  unfold Py.math_ceil.
  destruct (Prim2SF x) as [s|s| |s m e]; try (intros []); try discriminate.
  destruct s; [intros []|]. intros _ H. injection H as <-.
  apply ceil_value_positive.
Qed.

Lemma trunc_value_not_negative (m : positive) (e : Z) :
  0 <= (if 0 <=? e then Py.SFint false m * 2 ^ e
        else Z.quot (Py.SFint false m) (2 ^ (- e))).
Proof.
  unfold Py.SFint.
  destruct (0 <=? e) eqn:He.
  - apply Z.leb_le in He.
    assert (0 < 2 ^ e) by (apply Z.pow_pos_nonneg; lia). nia.
  - apply Z.leb_gt in He. apply Z.quot_pos; [lia|].
    apply Z.pow_pos_nonneg; lia.
Qed.

Lemma int_of_float_not_negative (x : float) (n : Z) :
  (x <? 0)%float = false -> Py.int_of_float x = Ok n -> 0 <= n.
Proof.
  intros Hx. apply not_negative_ltb in Hx. revert Hx.
  unfold Py.int_of_float.
  destruct (Prim2SF x) as [s|s| |s m e]; try discriminate.
  - intros _ H. injection H as <-. lia.
  - destruct s; [intros []|]. intros _ H. injection H as <-.
    apply trunc_value_not_negative.
Qed.


(** ** Integers below [2^53] are floats *)

Lemma digits2_pos_iter_xO (m k : positive) :
  digits2_pos (Pos.iter xO m k) = (digits2_pos m + k)%positive.
Proof.
  induction k as [|k IHk] using Pos.peano_ind.
  - simpl. lia.
  - rewrite Pos.iter_succ. simpl. rewrite IHk. lia.
Qed.

Lemma pos_iter_xO_value (m k : positive) :
  Z.pos (Pos.iter xO m k) = Z.pos m * 2 ^ Z.pos k.
Proof.
  induction k as [|k IHk] using Pos.peano_ind.
  - simpl. lia.
  - rewrite Pos.iter_succ, Pos2Z.inj_xO, IHk, Pos2Z.inj_succ, Z.pow_succ_r by lia. lia.
Qed.

Lemma digits2_pos_lower (m : positive) : 2 ^ (Z.pos (digits2_pos m) - 1) <= Z.pos m.
Proof.
  induction m as [m IH|m IH|]; simpl digits2_pos.
  - rewrite Pos2Z.inj_succ.
    replace (Z.succ (Z.pos (digits2_pos m)) - 1)
      with (Z.succ (Z.pos (digits2_pos m) - 1)) by lia.
    rewrite Z.pow_succ_r by lia. lia.
  - rewrite Pos2Z.inj_succ.
    replace (Z.succ (Z.pos (digits2_pos m)) - 1)
      with (Z.succ (Z.pos (digits2_pos m) - 1)) by lia.
    rewrite Z.pow_succ_r by lia. lia.
  - simpl. lia.
Qed.

Lemma digits2_pos_le (m : positive) (k : Z) :
  0 <= k -> Z.pos m < 2 ^ k -> Z.pos (digits2_pos m) <= k.
Proof.
  intros Hk Hm.
  destruct (Z_le_gt_dec (Z.pos (digits2_pos m)) k) as [|Hgt]; [assumption|].
  pose proof (digits2_pos_lower m) as Hl.
  assert (2 ^ k <= 2 ^ (Z.pos (digits2_pos m) - 1)) by (apply Z.pow_le_mono_r; lia).
  lia.
Qed.

Lemma digits2_pos_upper (m : positive) : Z.pos m < 2 ^ Z.pos (digits2_pos m).
Proof.
  induction m as [m IH|m IH|]; simpl digits2_pos.
  - rewrite Pos2Z.inj_succ, Z.pow_succ_r by lia. lia.
  - rewrite Pos2Z.inj_succ, Z.pow_succ_r by lia. lia.
  - reflexivity.
Qed.

(** A mantissa of exactly 53 bits with an exponent in range is kept as it
    is by the rounding of the format. *)
Lemma binary_round_aux_canonical (s : bool) (m : positive) (e : Z) :
  Z.pos (digits2_pos m) = 53 -> -1074 <= e <= 971 ->
  binary_round_aux prec emax s (Z.pos m) e loc_Exact = S754_finite s m e.
Proof.
  intros Hd He.
  assert (Hf : fexp prec emax (Z.pos (digits2_pos m) + e) - e = 0).
  { unfold fexp, SpecFloat.emin, prec, emax. rewrite Hd. lia. }
  unfold binary_round_aux, shr_fexp. simpl Zdigits2. zdef. rewrite Hf.
  cbv beta iota zeta delta
    [shr shr_record_of_loc shr_m loc_of_shr_record round_nearest_even Zdigits2].
  zdef. rewrite Hf. cbv beta iota zeta.
  replace (e <=? emax - prec) with true
    by (symmetry; apply Z.leb_le; unfold emax, prec; lia).
  reflexivity.
Qed.

Lemma binary_round_small (s : bool) (p : positive) :
  Z.pos p < 2 ^ 53 ->
  binary_round prec emax s p 0
  = S754_finite s (align53 p) (Z.pos (digits2_pos p) - 53).
Proof.
  intros Hp.
  assert (Hd : Z.pos (digits2_pos p) <= 53) by (apply digits2_pos_le; [lia|assumption]).
  unfold binary_round, shl_align, align53.
  assert (Hf : fexp prec emax (Z.pos (digits2_pos p) + 0) = Z.pos (digits2_pos p) - 53).
  { unfold fexp, SpecFloat.emin, prec, emax. lia. }
  zdef. rewrite Hf.
  replace (Z.pos (digits2_pos p) - 53 - 0) with (- (53 - Z.pos (digits2_pos p))) by lia.
  destruct (53 - Z.pos (digits2_pos p)) as [|d|d] eqn:Hk; simpl Z.opp; cbv iota beta.
  - replace (Z.pos (digits2_pos p) - 53) with 0 by lia.
    apply binary_round_aux_canonical; lia.
  - apply binary_round_aux_canonical; [|lia].
    rewrite digits2_pos_iter_xO. lia.
  - lia.
Qed.

Lemma align53_digits (p : positive) :
  Z.pos p < 2 ^ 53 -> Z.pos (digits2_pos (align53 p)) = 53.
Proof.
  intros Hp.
  assert (Hd : Z.pos (digits2_pos p) <= 53) by (apply digits2_pos_le; [lia|assumption]).
  unfold align53.
  destruct (53 - Z.pos (digits2_pos p)) as [|d|d] eqn:Hk; try lia.
  rewrite digits2_pos_iter_xO. lia.
Qed.

Lemma align53_value (p : positive) :
  Z.pos p < 2 ^ 53 ->
  Z.pos (align53 p) = Z.pos p * 2 ^ (53 - Z.pos (digits2_pos p)).
Proof.
  intros Hp. unfold align53.
  assert (Hd : Z.pos (digits2_pos p) <= 53) by (apply digits2_pos_le; [lia|assumption]).
  destruct (53 - Z.pos (digits2_pos p)) as [|d|d] eqn:Hk; try lia.
  apply pos_iter_xO_value.
Qed.

Lemma binary_round_small_valid (s : bool) (p : positive) :
  Z.pos p < 2 ^ 53 ->
  SpecFloat.valid_binary prec emax (binary_round prec emax s p 0) = true.
Proof.
  intros Hp. rewrite binary_round_small by assumption.
  assert (Hd : Z.pos (digits2_pos p) <= 53) by (apply digits2_pos_le; [lia|assumption]).
  unfold SpecFloat.valid_binary, bounded, canonical_mantissa. zdef.
  rewrite align53_digits by assumption.
  apply andb_true_intro; split.
  - apply Z.eqb_eq. unfold fexp, SpecFloat.emin, prec, emax. lia.
  - apply Z.leb_le. unfold prec, emax. lia.
Qed.

(** The float of a positive integer below [2^53]. *)
Lemma Prim2SF_of_small (p : positive) :
  Z.pos p < 2 ^ 53 ->
  Prim2SF (SF2Prim (binary_round prec emax false p 0))
  = S754_finite false (align53 p) (Z.pos (digits2_pos p) - 53).
Proof.
  intros Hp. rewrite Prim2SF_SF2Prim by now apply binary_round_small_valid.
  now apply binary_round_small.
Qed.

Lemma float_of_int_small (n : Z) :
  0 < n < 2 ^ 53 ->
  exists x, Py.float_of_int n = Ok x /\ positive_sf (Prim2SF x).
Proof.
  intros [Hpos Hn]. destruct n as [|p|p]; try lia.
  exists (SF2Prim (binary_round prec emax false p 0)). split.
  - unfold Py.float_of_int, Py.Z2SF. cbn [binary_normalize].
    rewrite binary_round_small by assumption. reflexivity.
  - rewrite Prim2SF_of_small by assumption. exact I.
Qed.

Lemma math_sqrt_int_small (n : Z) :
  0 < n < 2 ^ 53 -> exists r, Py.math_sqrt_int n = Ok r.
Proof.
  intros Hn. destruct (float_of_int_small Hn) as (x & Hx & Hp).
  unfold Py.math_sqrt_int. rewrite Hx. cbn [bind]. unfold Py.math_sqrt.
  apply positive_not_negative, not_negative_ltb in Hp. rewrite Hp.
  eexists. reflexivity.
Qed.


Lemma integer_value_of_small (p : positive) :
  Z.pos p < 2 ^ 53 ->
  Py.integer_value (SF2Prim (binary_round prec emax false p 0)) = Some (Z.pos p).
Proof.
  intros Hp. unfold Py.integer_value. rewrite Prim2SF_of_small by assumption.
  assert (Hd : Z.pos (digits2_pos p) <= 53) by (apply digits2_pos_le; [lia|assumption]).
  pose proof (align53_value Hp) as Hv.
  unfold Py.SFint.
  destruct (0 <=? Z.pos (digits2_pos p) - 53) eqn:He.
  - apply Z.leb_le in He.
    replace (Z.pos (digits2_pos p) - 53) with 0 by lia.
    replace (53 - Z.pos (digits2_pos p)) with 0 in Hv by lia.
    rewrite Hv, Z.pow_0_r. f_equal. lia.
  - apply Z.leb_gt in He.
    replace (- (Z.pos (digits2_pos p) - 53)) with (53 - Z.pos (digits2_pos p)) by lia.
    assert (Hpow : 0 < 2 ^ (53 - Z.pos (digits2_pos p))) by (apply Z.pow_pos_nonneg; lia).
    rewrite Hv, Z.mod_mul, Z.div_mul by lia. reflexivity.
Qed.

(** ** Rounding to an integer *)

Lemma valid_mantissa_bound (s : bool) (m : positive) (e : Z) :
  SpecFloat.valid_binary prec emax (S754_finite s m e) = true -> Z.pos m < 2 ^ 53.
Proof.
  unfold SpecFloat.valid_binary, bounded, canonical_mantissa. zdef.
  intros H. apply andb_prop in H as [H _]. apply Z.eqb_eq in H.
  unfold fexp, SpecFloat.emin, prec, emax in H. zdef.
  assert (Hd : Z.pos (digits2_pos m) <= 53) by lia.
  pose proof (digits2_pos_upper m) as Hu.
  assert (2 ^ Z.pos (digits2_pos m) <= 2 ^ 53) by (apply Z.pow_le_mono_r; lia).
  lia.
Qed.

Lemma round_half_even_bounds (m k : Z) :
  0 <= m -> 0 < k -> 0 <= Py.round_half_even m k <= m / 2 + 1.
Proof.
  intros Hm Hk. unfold Py.round_half_even.
  assert (Hp : 2 <= 2 ^ k).
  { replace 2 with (2 ^ 1) at 1 by reflexivity. apply Z.pow_le_mono_r; lia. }
  assert (Hq : 0 <= m / 2 ^ k) by (apply Z.div_pos; lia).
  assert (Hq' : m / 2 ^ k <= m / 2) by (apply Z.div_le_compat_l; lia).
  destruct (2 * (m mod 2 ^ k) ?= 2 ^ k); [destruct (Z.even _)| |]; lia.
Qed.

Lemma np_round_integer (x : float) :
  (x <? 0)%float = false -> Py.isfinite x = true ->
  exists n, 0 <= n /\ Py.integer_value (Py.np_round x) = Some n.
Proof.
  intros Hneg Hfin. apply not_negative_ltb in Hneg.
  pose proof (Prim2SF_valid x) as Hvalid.
  unfold Py.isfinite in Hfin. unfold Py.np_round.
  destruct (Prim2SF x) as [s|s| |s m e] eqn:E; try discriminate.
  - exists 0. split; [lia|]. unfold Py.integer_value. now rewrite E.
  - destruct s; [destruct Hneg|].
    destruct (0 <=? e) eqn:He.
    + exists (Py.SFint false m * 2 ^ e). split.
      * apply Z.leb_le in He. unfold Py.SFint.
        assert (0 < 2 ^ e) by (apply Z.pow_pos_nonneg; lia). nia.
      * unfold Py.integer_value. now rewrite E, He.
    + apply Z.leb_gt in He.
      apply valid_mantissa_bound in Hvalid.
      assert (Hb : 0 <= Py.round_half_even (Z.pos m) (- e) <= Z.pos m / 2 + 1)
        by (apply round_half_even_bounds; lia).
      assert (Hh : Z.pos m / 2 < 2 ^ 52).
      { apply Z.div_lt_upper_bound; [lia|]. change (2 * 2 ^ 52) with (2 ^ 53). lia. }
      assert (Hlt : Py.round_half_even (Z.pos m) (- e) < 2 ^ 53).
      { apply Z.le_lt_trans with (2 ^ 52); [lia|reflexivity]. }
      destruct (Py.round_half_even (Z.pos m) (- e)) as [|p|p]; try lia.
      * exists 0. split; [lia|reflexivity].
      * exists (Z.pos p). split; [lia|].
        cbn [binary_normalize]. now apply integer_value_of_small.
Qed.

Lemma np_round_clip_integer (x : float) :
  Py.isfinite x = true ->
  exists n, 0 <= n /\ Py.integer_value (Py.np_round (clip_negative x)) = Some n.
Proof.
  intros Hfin. unfold clip_negative.
  destruct (x <? 0)%float eqn:Hx.
  - exists 0. split; [lia|reflexivity].
  - now apply np_round_integer.
Qed.

(** ** NaN *)

Lemma nan_of_leb_ltb (x : float) :
  (x <=? 0)%float = false -> (0 <? x)%float = false -> Prim2SF x = S754_nan.
Proof.
  rewrite leb_zero_r, ltb_zero_l.
  destruct (Prim2SF x) as [s|s| |s m e]; try destruct s; cbv; congruence.
Qed.

Lemma nan_of_ltb_leb (x : float) :
  (x <? 0)%float = false -> (0 <=? x)%float = false -> Prim2SF x = S754_nan.
Proof.
  rewrite ltb_zero_r, leb_zero_l.
  destruct (Prim2SF x) as [s|s| |s m e]; try destruct s; cbv; congruence.
Qed.

Lemma SFmul_nan_l (y : spec_float) : SFmul prec emax S754_nan y = S754_nan.
Proof. reflexivity. Qed.

Lemma SFmul_nan_r (x : spec_float) : SFmul prec emax x S754_nan = S754_nan.
Proof. now destruct x. Qed.

Lemma SFdiv_nan_l (y : spec_float) : SFdiv prec emax S754_nan y = S754_nan.
Proof. reflexivity. Qed.

Lemma SFdiv_nan_r (x : spec_float) : SFdiv prec emax x S754_nan = S754_nan.
Proof. now destruct x. Qed.

Lemma math_ceil_sqrt_nan (x : float) :
  Prim2SF x = S754_nan ->
  (r <- Py.math_sqrt x ;; Py.math_ceil r)
  = Raise (ValueError "cannot convert float NaN to integer").
Proof.
  intros Hx. unfold Py.math_sqrt.
  rewrite ltb_zero_r, Hx. cbn.
  unfold Py.math_ceil. rewrite sqrt_spec, Hx. reflexivity.
Qed.

(** ** Clipping and rounding never go below zero *)

Lemma np_round_not_negative (x : float) :
  not_negative (Prim2SF x) -> not_negative (Prim2SF (Py.np_round x)).
Proof.
  intros Hneg. pose proof (Prim2SF_valid x) as Hvalid. unfold Py.np_round.
  destruct (Prim2SF x) as [s|s| |s m e] eqn:E; try (now rewrite E).
  destruct s; [destruct Hneg|].
  destruct (0 <=? e) eqn:He; [now rewrite E|].
  apply Z.leb_gt in He. apply valid_mantissa_bound in Hvalid.
  assert (Hb : 0 <= Py.round_half_even (Z.pos m) (- e) <= Z.pos m / 2 + 1)
    by (apply round_half_even_bounds; lia).
  assert (Hh : Z.pos m / 2 < 2 ^ 52).
  { apply Z.div_lt_upper_bound; [lia|]. change (2 * 2 ^ 52) with (2 ^ 53). lia. }
  assert (Hlt : Py.round_half_even (Z.pos m) (- e) < 2 ^ 53).
  { apply Z.le_lt_trans with (2 ^ 52); [lia|reflexivity]. }
  destruct (Py.round_half_even (Z.pos m) (- e)) as [|p|p]; try lia.
  - exact I.
  - cbn [binary_normalize]. now rewrite Prim2SF_of_small.
Qed.

Lemma clip_negative_not_negative (x : float) :
  not_negative (Prim2SF (clip_negative x)).
Proof.
  unfold clip_negative. destruct (x <? 0)%float eqn:Hx.
  - exact I.
  - now apply not_negative_ltb.
Qed.

Lemma clipped_rounded_not_negative (x : float) :
  (Py.np_round (clip_negative x) <? 0)%float = false.
Proof. apply not_negative_ltb, np_round_not_negative, clip_negative_not_negative. Qed.

End FloatFacts.

(** * The suggestion policy *)

Module Suggestion.

(** C1, as the specification words it, fails: with an order quantity of 1
    and a safety stock of 5 above a reorder point of 10, an inventory of 13
    is flagged as overstock although it does not exceed
    [reorderPoint + max(EOQ, safetyStock) = 15]. *)
Lemma overstock_threshold_is_not_max :
  is_overstock (suggest 13 10 1 5) = true /\ (10 + Z.max 1 5 <? 13) = false.
Proof. split; reflexivity. Qed.

Lemma suggest_above_reorder_point (cur rop eoq ss : Z) :
  rop < cur ->
  suggest cur rop eoq ss
  = if rop + (if 0 <? eoq then eoq else ss) <? cur
    then PotentialOverstock cur rop ss else MaintainStock.
Proof.
  intros H. unfold suggest.
  replace (cur <=? rop) with false by (symmetry; apply Z.leb_gt; lia).
  reflexivity.
Qed.

(** C1 (amended): above the reorder point, the overstock warning is emitted
    exactly when the inventory exceeds the reorder point plus the order
    quantity if that is positive, plus the safety stock otherwise; the
    threshold is [reorderPoint + max(EOQ, safetyStock)] when the order
    quantity is zero or at least the safety stock. *)
Theorem overstock_threshold (cur rop eoq ss : Z) :
  rop < cur ->
  (is_overstock (suggest cur rop eoq ss) = true
   <-> rop + (if 0 <? eoq then eoq else ss) < cur)
  /\ (is_overstock (suggest cur rop eoq ss) = false
      -> suggest cur rop eoq ss = MaintainStock)
  /\ (0 <= ss -> eoq <= 0 \/ ss <= eoq ->
      rop + (if 0 <? eoq then eoq else ss) = rop + Z.max eoq ss).
Proof.
  intros H. rewrite (suggest_above_reorder_point eoq ss H).
  repeat split.
  - destruct (_ <? cur) eqn:E; [intros _; now apply Z.ltb_lt in E|discriminate].
  - intros Hlt. apply Z.ltb_lt in Hlt. now rewrite Hlt.
  - destruct (_ <? cur); [discriminate|reflexivity].
  - intros Hss Hcase. destruct (0 <? eoq) eqn:E.
    + apply Z.ltb_lt in E. lia.
    + apply Z.ltb_ge in E. lia.
Qed.

Lemma overstock_threshold_witness :
  is_overstock (suggest 600 70 494 12) = true <-> 70 + 494 < 600.
Proof.
  exact (proj1 (overstock_threshold (cur := 600) (rop := 70) 494 12 eq_refl)).
Defined.

End Suggestion.

(** * The forecast engine's errors *)

Module ForecastErrors.

Section WithLibraries.

Context {L : Libraries}.

Lemma forecast_demand_short (ts : list float) (model_type : string) (days sp : Z) :
  Py.len ts < min_data_points model_type sp ->
  forecast_demand ts model_type days sp
  = Raise (HTTPException 400
             (InsufficientHistoryDetail (Py.len ts) model_type
                                        (min_data_points model_type sp))).
Proof.
  intros H. unfold forecast_demand.
  now replace (Py.len ts <? min_data_points model_type sp) with true
    by (symmetry; apply Z.ltb_lt; lia).
Qed.

Lemma forecast_demand_bad_horizon (ts : list float) (model_type : string) (days sp : Z) :
  min_data_points model_type sp <= Py.len ts -> days <= 0 ->
  forecast_demand ts model_type days sp = Raise (HTTPException 400 ForecastDaysDetail).
Proof.
  intros H Hd. unfold forecast_demand.
  replace (Py.len ts <? min_data_points model_type sp) with false
    by (symmetry; apply Z.ltb_ge; lia).
  now replace (days <=? 0) with true by (symmetry; apply Z.leb_le; lia).
Qed.

Lemma forecast_demand_fit (ts : list float) (model_type : string) (days sp : Z) :
  min_data_points model_type sp <= Py.len ts -> 0 < days ->
  forecast_demand ts model_type days sp
  = match fit_and_project ts model_type days sp with
    | Ok forecast => Ok forecast
    | Raise _ => Raise (HTTPException 500 (ForecastInternalDetail model_type))
    end.
Proof.
  intros H Hd. unfold forecast_demand.
  replace (Py.len ts <? min_data_points model_type sp) with false
    by (symmetry; apply Z.ltb_ge; lia).
  now replace (days <=? 0) with false by (symmetry; apply Z.leb_gt; lia).
Qed.

(** C2 (amended): a non-positive horizon is refused as an invalid parameter
    for every model type, on every series that meets the minimum-data
    threshold of the model; the threshold is checked first, so a shorter
    series is refused for insufficient data whatever the horizon. *)
Theorem nonpositive_horizon_errors (ts : list float) (model_type : string)
    (forecast_days seasonal_periods : Z) :
  forecast_days <= 0 ->
  (min_data_points model_type seasonal_periods <= Py.len ts ->
   forecast_demand ts model_type forecast_days seasonal_periods
   = Raise (HTTPException 400 ForecastDaysDetail)
   /\ raises (forecast_demand ts model_type forecast_days seasonal_periods)
             InvalidParameter)
  /\ (Py.len ts < min_data_points model_type seasonal_periods ->
      raises (forecast_demand ts model_type forecast_days seasonal_periods)
             InsufficientData).
Proof.
  intros Hd. split.
  - intros H. rewrite forecast_demand_bad_horizon by assumption.
    split; reflexivity.
  - intros H. rewrite forecast_demand_short by assumption. reflexivity.
Qed.

(** C10 (amended): on a series of at least ten observations and with a
    positive horizon, a model type other than the two known ones raises a 400
    inside the fitting block, which the engine's own handler turns into a
    500; the same happens to the 400 raised for a [ValueError] of the
    exponential-smoothing fit. *)
Theorem unknown_model_is_internal_error (ts : list float) (model_type : string)
    (forecast_days seasonal_periods : Z) :
  model_type <> "ARIMA" -> model_type <> "ExponentialSmoothing" ->
  10 <= Py.len ts -> 0 < forecast_days ->
  fit_and_project ts model_type forecast_days seasonal_periods
  = Raise (HTTPException 400 (InvalidModelTypeDetail model_type))
  /\ forecast_demand ts model_type forecast_days seasonal_periods
     = Raise (HTTPException 500 (ForecastInternalDetail model_type))
  /\ raises (forecast_demand ts model_type forecast_days seasonal_periods)
            InternalError
  /\ (forall ts' sp' ve,
        min_data_points "ExponentialSmoothing" sp' <= Py.len ts' ->
        exp_smoothing_forecast ts' sp' forecast_days = Raise (ValueError ve) ->
        fit_and_project ts' "ExponentialSmoothing" forecast_days sp'
        = Raise (HTTPException 400 (CouldNotFitESDetail sp' ve))
        /\ forecast_demand ts' "ExponentialSmoothing" forecast_days sp'
           = Raise (HTTPException 500 (ForecastInternalDetail "ExponentialSmoothing"))).
Proof.
  intros Ha He Hlen Hd.
  apply String.eqb_neq in Ha, He.
  assert (Hfit : fit_and_project ts model_type forecast_days seasonal_periods
                 = Raise (HTTPException 400 (InvalidModelTypeDetail model_type))).
  { unfold fit_and_project. now rewrite Ha, He. }
  assert (Hmin : min_data_points model_type seasonal_periods = 10).
  { unfold min_data_points. now rewrite He. }
  assert (Hres : forecast_demand ts model_type forecast_days seasonal_periods
                 = Raise (HTTPException 500 (ForecastInternalDetail model_type))).
  { rewrite forecast_demand_fit by lia. now rewrite Hfit. }
  split; [exact Hfit|]. split; [exact Hres|]. split.
  - rewrite Hres. reflexivity.
  - intros ts' sp' ve Hlen' Hve.
    assert (Hfit' : fit_and_project ts' "ExponentialSmoothing" forecast_days sp'
                    = Raise (HTTPException 400 (CouldNotFitESDetail sp' ve))).
    { unfold fit_and_project. cbn [String.eqb Ascii.eqb Bool.eqb]. now rewrite Hve. }
    split; [exact Hfit'|].
    rewrite forecast_demand_fit by lia. now rewrite Hfit'.
Qed.

End WithLibraries.

(** C2, as the specification words it, fails: on an empty series a horizon
    of 0 is answered with the insufficient-data error, the minimum-data check
    being the first one. *)
Lemma short_series_masks_horizon_check :
  forecast_demand (L := Bench.libraries) [] "ARIMA" 0 7
  = Raise (HTTPException 400 (InsufficientHistoryDetail 0 "ARIMA" 10))
  /\ raises (forecast_demand (L := Bench.libraries) [] "ARIMA" 0 7) InsufficientData.
Proof. split; reflexivity. Qed.

Lemma nonpositive_horizon_errors_witness :
  raises (forecast_demand (L := Bench.libraries) (repeat 10%float 12)
                          "ExponentialSmoothing" 0 5) InvalidParameter.
Proof.
  refine (proj2 (proj1 (nonpositive_horizon_errors (L := Bench.libraries)
                          (repeat 10%float 12) "ExponentialSmoothing"
                          (forecast_days := 0) 5 _) _)).
  - lia.
  - vm_compute. discriminate.
Defined.

(** C10, as the specification words it, fails: an unknown model type with a
    horizon of 0 is refused as an invalid parameter, and on a short series
    for insufficient data, both before the fitting block is entered. *)
Lemma unknown_model_can_be_invalid_parameter :
  forecast_demand (L := Bench.libraries) (repeat 10%float 12) "Prophet" 0 7
  = Raise (HTTPException 400 ForecastDaysDetail)
  /\ raises (forecast_demand (L := Bench.libraries) (repeat 10%float 12) "Prophet" 0 7)
            InvalidParameter
  /\ raises (forecast_demand (L := Bench.libraries) [] "Prophet" 30 7) InsufficientData.
Proof. repeat split. Qed.

Lemma unknown_model_is_internal_error_witness :
  forecast_demand (L := Bench.libraries) (repeat 10%float 12) "Prophet" 30 7
  = Raise (HTTPException 500 (ForecastInternalDetail "Prophet")).
Proof.
  refine (proj1 (proj2 (unknown_model_is_internal_error (L := Bench.libraries)
                          (repeat 10%float 12) (model_type := "Prophet")
                          (forecast_days := 30) 7 _ _ _ _))).
  - discriminate.
  - discriminate.
  - vm_compute. discriminate.
  - lia.
Defined.

End ForecastErrors.

(** * The inventory optimizer *)

Module Optimizer.

Import SF FloatFacts.

Lemma Forall_prefix {A : Type} (P : A -> Prop) (n : nat) (l : list A) :
  Forall P l -> Forall P (firstn n l).
Proof.
  revert l. induction n as [|n IH]; intros l Hl; [constructor|].
  destruct Hl as [|x l Hx Hl]; constructor; auto.
Qed.

Section WithLibraries.

Context {L : Libraries}.

(** What a returned policy is made of: every step of the body succeeded. *)
Lemma optimization_ok_inv (df : DataFrame) (pid : string) (fc : list float)
    (lead : Z) (sl h o : float) (p : InventoryPolicy) :
  calculate_inventory_optimization df pid fc lead sl h o = Ok p ->
  exists data ss ddlt eoq cur,
    get_product_data df pid = Ok data
    /\ compute_safety_stock sl lead
         (fst (demand_variability (resample_D_sum (units_sold_series (fst data))))) = Ok ss
    /\ compute_ddlt fc lead = Ok ddlt
    /\ compute_eoq (fst (compute_annual_demand fc)) h o = Ok eoq
    /\ compute_current_inventory (fst data) = Ok cur
    /\ current_inventory p = cur /\ safety_stock p = ss
    /\ reorder_point p = ddlt + ss /\ economic_order_quantity p = eoq
    /\ demand_during_lead_time p = ddlt
    /\ suggestion p = suggestion_text (suggest cur (ddlt + ss) eoq ss)
    /\ demand_variability_method (assumptions_used p)
       = snd (demand_variability (resample_D_sum (units_sold_series (fst data)))).
Proof.
  unfold calculate_inventory_optimization, optimization_body.
  destruct (get_product_data df pid) as [data|e] eqn:Hdata; cbn [bind];
    [|destruct e; discriminate].
  cbv zeta.
  destruct (demand_variability _) as [std method] eqn:Hdv; cbn [fst snd].
  destruct (compute_safety_stock sl lead std) as [ss|e] eqn:Hss; cbn [bind];
    [|destruct e; discriminate].
  destruct (compute_ddlt fc lead) as [ddlt|e] eqn:Hddlt; cbn [bind];
    [|destruct e; discriminate].
  destruct (compute_annual_demand fc) as [annual amethod] eqn:Hannual; cbn [fst].
  destruct (compute_eoq annual h o) as [eoq|e] eqn:Heoq; cbn [bind];
    [|destruct e; discriminate].
  destruct (compute_current_inventory (fst data)) as [cur|e] eqn:Hcur; cbn [bind];
    [|destruct e; discriminate].
  intros H. injection H as <-.
  exists data, ss, ddlt, eoq, cur. rewrite Hdv. cbn.
  repeat split; assumption || reflexivity.
Qed.


(** ** The components are non-negative *)

Lemma compute_safety_stock_not_negative (sl : float) (lead : Z) (std : float) (ss : Z) :
  compute_safety_stock sl lead std = Ok ss -> 0 <= ss.
Proof.
  unfold compute_safety_stock.
  destruct (Py.math_sqrt_int lead) as [root|e]; cbn [bind]; [|discriminate].
  destruct (0 <? norm_ppf sl * root * std)%float eqn:Hpos.
  - intros H. pose proof (math_ceil_positive Hpos H). lia.
  - intros H. injection H as <-. lia.
Qed.

Lemma compute_eoq_not_negative (annual h o : float) (n : Z) :
  compute_eoq annual h o = Ok n -> 0 <= n.
Proof.
  unfold compute_eoq.
  destruct (_ || _ || _).
  - intros H. injection H as <-. lia.
  - unfold Py.math_sqrt. destruct (_ <? 0)%float; cbn [bind]; [discriminate|].
    apply math_ceil_not_negative. rewrite sqrt_spec. apply SFsqrt_not_negative.
Qed.


Lemma compute_current_inventory_not_negative (hist : DataFrame) (n : Z) :
  Forall (fun r => (Inventory_Level r <? 0)%float = false) hist ->
  compute_current_inventory hist = Ok n -> 0 <= n.
Proof.
  intros Hhist. unfold compute_current_inventory.
  destruct (rev hist) as [|latest rest] eqn:Hrev.
  - intros H. injection H as <-. lia.
  - assert (Hin : In latest hist).
    { apply in_rev. rewrite Hrev. now left. }
    rewrite Forall_forall in Hhist. specialize (Hhist _ Hin).
    destruct (Py.isna _).
    + intros H. injection H as <-. lia.
    + now apply int_of_float_not_negative.
Qed.

Lemma get_product_data_rows (df : DataFrame) (pid : string)
    (data : DataFrame * list float) :
  get_product_data df pid = Ok data -> incl (fst data) df.
Proof.
  unfold get_product_data.
  destruct df as [|r0 df']; [discriminate|].
  set (df := r0 :: df').
  destruct (filter _ df) as [|r1 pd] eqn:Hf1; [discriminate|].
  destruct (filter _ (r1 :: pd)) as [|r2 pd'] eqn:Hf2; [discriminate|].
  intros H. injection H as <-. cbn [fst].
  intros r Hr. rewrite <- Hf2 in Hr. apply filter_In in Hr as [Hr _].
  rewrite <- Hf1 in Hr. now apply filter_In in Hr as [Hr _].
Qed.


(** ** The economic order quantity *)

Lemma ltb_leb_false (x : float) : (0 <? x)%float = true -> (x <=? 0)%float = false.
Proof.
  rewrite ltb_zero_l, leb_zero_r.
  destruct (Prim2SF x) as [s|s| |s m e]; try destruct s; cbv; congruence.
Qed.

Lemma leb_ltb_false (x : float) : (0 <=? x)%float = true -> (x <? 0)%float = false.
Proof.
  rewrite ltb_zero_r, leb_zero_l.
  destruct (Prim2SF x) as [s|s| |s m e]; try destruct s; cbv; congruence.
Qed.

Lemma eqb_leb_zero (x : float) : (x =? 0)%float = true -> (x <=? 0)%float = true.
Proof.
  rewrite eqb_spec, leb_zero_r, Prim2SF_zero.
  destruct (Prim2SF x) as [s|s| |s m e]; try destruct s; cbv; congruence.
Qed.

Lemma eoq_argument_not_negative (annual h o : float) :
  (0 <? annual)%float = true -> (0 <? h)%float = true -> (0 <=? o)%float = true ->
  not_negative (Prim2SF ((2 * annual * o) / h)%float).
Proof.
  intros Ha Hh Ho.
  rewrite div_spec, !mul_spec.
  apply SFdiv_not_negative; [|now apply positive_ltb].
  apply SFmul_not_negative; [|now apply leb_zero_not_negative].
  apply SFmul_not_negative; [exact I|].
  now apply positive_not_negative, positive_ltb.
Qed.

Lemma eoq_argument_nan (annual h o : float) :
  Prim2SF annual = S754_nan \/ Prim2SF h = S754_nan \/ Prim2SF o = S754_nan ->
  Prim2SF ((2 * annual * o) / h)%float = S754_nan.
Proof.
  rewrite div_spec, !mul_spec.
  intros [H|[H|H]]; rewrite H.
  - now rewrite SFmul_nan_r, SFmul_nan_l, SFdiv_nan_l.
  - now rewrite SFdiv_nan_r.
  - now rewrite SFmul_nan_r, SFdiv_nan_l.
Qed.

(** C5: the order quantity is the ceiling of the square-root formula when
    annual demand and holding cost are positive and the ordering cost is not
    negative, and it is 0 otherwise: in particular when the annual demand or
    the holding cost is 0 or the ordering cost negative, and in every other
    case in which an order quantity is computed at all. The returned policy
    carries that quantity. *)
Theorem eoq_formula (fc : list float) (annual h o : float) :
  ((0 <? annual)%float && (0 <? h)%float && (0 <=? o)%float = true ->
   compute_eoq annual h o
   = Py.math_ceil (PrimFloat.sqrt ((2 * annual * o) / h)))
  /\ ((annual =? 0)%float || (h =? 0)%float || (o <? 0)%float = true ->
      compute_eoq annual h o = Ok 0)
  /\ (forall n, compute_eoq annual h o = Ok n ->
      (0 <? annual)%float && (0 <? h)%float && (0 <=? o)%float = false -> n = 0)
  /\ (forall df pid lead sl p,
      calculate_inventory_optimization df pid fc lead sl h o = Ok p ->
      compute_eoq (fst (compute_annual_demand fc)) h o
      = Ok (economic_order_quantity p)).
Proof.
  split; [|split; [|split]].
  - intros Hc. apply andb_prop in Hc as [Hc Ho]. apply andb_prop in Hc as [Ha Hh].
    unfold compute_eoq.
    rewrite (ltb_leb_false Ha), (ltb_leb_false Hh), (leb_ltb_false Ho).
    cbn [orb]. unfold Py.math_sqrt.
    pose proof (eoq_argument_not_negative Ha Hh Ho) as Hn.
    apply not_negative_ltb in Hn. now rewrite Hn.
  - intros Hc. unfold compute_eoq.
    apply orb_prop in Hc as [Hc|Ho]; [apply orb_prop in Hc as [Ha|Hh]|].
    + now rewrite (eqb_leb_zero Ha).
    + rewrite (eqb_leb_zero Hh). now rewrite orb_true_r.
    + rewrite Ho. now rewrite orb_true_r.
  - intros n. unfold compute_eoq.
    destruct (annual <=? 0)%float eqn:Ha; cbn [orb]; [intros [= <-]; reflexivity|].
    destruct (h <=? 0)%float eqn:Hh; cbn [orb]; [intros [= <-]; reflexivity|].
    destruct (o <? 0)%float eqn:Ho; [intros [= <-]; reflexivity|].
    intros Hn Hc. exfalso.
    rewrite math_ceil_sqrt_nan in Hn; [discriminate|].
    apply eoq_argument_nan.
    destruct (0 <? annual)%float eqn:Ha'; [|left; now apply nan_of_leb_ltb].
    destruct (0 <? h)%float eqn:Hh'; [|right; left; now apply nan_of_leb_ltb].
    right; right. cbn in Hc. now apply nan_of_ltb_leb.
  - intros df pid lead sl p H.
    destruct (optimization_ok_inv _ _ _ _ _ _ _ H)
      as (data & ss & ddlt & eoq & cur & _ & _ & _ & Heoq & _ & _ & _ & _ & -> & _).
    exact Heoq.
Qed.

(** ** The demand during lead time *)

Lemma slice_to_lead_time (fc : list float) (lead : Z) :
  0 < lead ->
  Py.slice_to fc (Z.min (Py.len fc) lead)
  = firstn (Nat.min (List.length fc) (Z.to_nat lead)) fc.
Proof.
  intros Hl. unfold Py.slice_to, Py.len.
  replace (Z.min (Z.of_nat (List.length fc)) lead <? 0) with false
    by (symmetry; apply Z.ltb_ge; lia).
  f_equal. lia.
Qed.

(** C6: for a positive lead time the demand during lead time is the ceiling
    of the sum of the first [min(len(forecast), leadTimeDays)] forecast
    values; a forecast no longer than the lead time is summed as it is,
    nothing being added for the missing days. The returned policy carries
    that number. *)
Theorem ddlt_lead_time_prefix (fc : list float) (lead : Z) :
  0 < lead ->
  compute_ddlt fc lead
  = Py.math_ceil (Py.sum (firstn (Nat.min (List.length fc) (Z.to_nat lead)) fc))
  /\ (Py.len fc <= lead -> compute_ddlt fc lead = Py.math_ceil (Py.sum fc))
  /\ (forall df pid sl h o p,
      calculate_inventory_optimization df pid fc lead sl h o = Ok p ->
      Py.math_ceil (Py.sum (firstn (Nat.min (List.length fc) (Z.to_nat lead)) fc))
      = Ok (demand_during_lead_time p)).
Proof.
  intros Hl.
  assert (Heq : compute_ddlt fc lead
                = Py.math_ceil
                    (Py.sum (firstn (Nat.min (List.length fc) (Z.to_nat lead)) fc))).
  { unfold compute_ddlt. now rewrite slice_to_lead_time. }
  split; [exact Heq|]. split.
  - intros Hshort. rewrite Heq. unfold Py.len in Hshort.
    replace (Nat.min (List.length fc) (Z.to_nat lead)) with (List.length fc) by lia.
    now rewrite firstn_all.
  - intros df pid sl h o p H.
    destruct (optimization_ok_inv _ _ _ _ _ _ _ H)
      as (data & ss & ddlt & eoq & cur & _ & _ & Hddlt & _ & _ & _ & _ & _ & _ & -> & _).
    now rewrite <- Heq.
Qed.


(** ** Safety stock *)

Lemma demand_variability_short (daily_sales : list float) :
  Py.len daily_sales < 2 ->
  demand_variability daily_sales = (0%float, "N/A (Insufficient Data)").
Proof.
  intros Hlen. unfold demand_variability, ROLLING_WINDOW_DAYS.
  replace (90 <=? Py.len daily_sales) with false by (symmetry; apply Z.leb_gt; lia).
  replace (2 <=? Py.len daily_sales) with false by (symmetry; apply Z.leb_gt; lia).
  reflexivity.
Qed.

Lemma safety_stock_zero_std_inv (sl : float) (lead ss : Z) :
  compute_safety_stock sl lead 0 = Ok ss -> ss = 0.
Proof.
  unfold compute_safety_stock.
  destruct (Py.math_sqrt_int lead) as [root|e]; cbn [bind]; [|discriminate].
  rewrite mul_zero_not_positive. now intros [= <-].
Qed.

Lemma safety_stock_zero_std (sl : float) (lead : Z) :
  0 < lead < 2 ^ 53 -> compute_safety_stock sl lead 0 = Ok 0.
Proof.
  intros Hlead. destruct (math_sqrt_int_small Hlead) as [root Hroot].
  unfold compute_safety_stock. rewrite Hroot. cbn [bind].
  now rewrite mul_zero_not_positive.
Qed.

(** C9: a history of fewer than two daily observations gives a variability
    of 0 under the tag of the insufficient-data method, and with it a safety
    stock of 0 at every service level, whatever the quantile function
    returns there, infinite values included. *)
Theorem insufficient_history_no_safety_stock (daily_sales : list float) :
  Py.len daily_sales < 2 ->
  demand_variability daily_sales = (0%float, "N/A (Insufficient Data)")
  /\ (forall sl lead, 0 < lead < 2 ^ 53 ->
      compute_safety_stock sl lead (fst (demand_variability daily_sales)) = Ok 0)
  /\ (forall df pid fc lead sl h o data p,
      get_product_data df pid = Ok data ->
      resample_D_sum (units_sold_series (fst data)) = daily_sales ->
      calculate_inventory_optimization df pid fc lead sl h o = Ok p ->
      safety_stock p = 0
      /\ demand_variability_method (assumptions_used p) = "N/A (Insufficient Data)").
Proof.
  intros Hlen. pose proof (demand_variability_short _ Hlen) as Hdv.
  split; [exact Hdv|]. rewrite Hdv. cbn [fst]. split.
  - intros sl lead Hlead. now apply safety_stock_zero_std.
  - intros df pid fc lead sl h o data p Hdata Hseries H.
    destruct (optimization_ok_inv _ _ _ _ _ _ _ H)
      as (data' & ss & ddlt & eoq & cur & Hdata' & Hss & _ & _ & _ & _ & -> & _ & _
          & _ & _ & Hmethod).
    rewrite Hdata in Hdata'. injection Hdata' as <-.
    rewrite Hseries, Hdv in Hss, Hmethod. cbn [fst snd] in Hss, Hmethod.
    split; [|exact Hmethod].
    eapply safety_stock_zero_std_inv; eassumption.
Qed.

(** C7, at the service level 1: the quantile is infinite, and with a positive
    variability so is the raw safety stock, which [math.ceil] refuses; no
    safety stock is computed there. *)
Theorem safety_stock_overflows_at_full_service (std : float) :
  norm_ppf 1 = infinity -> (0 <? std)%float = true ->
  compute_safety_stock 1 7 std
  = Raise (OverflowError "cannot convert float infinity to integer").
Proof.
  intros Hppf Hstd. unfold compute_safety_stock. rewrite Hppf.
  destruct (Py.math_sqrt_int 7) as [root|e] eqn:Hroot; [|vm_compute in Hroot; discriminate].
  vm_compute in Hroot. injection Hroot as <-.
  cbn [bind].
  match goal with
  | |- context [Py.math_ceil ?t] =>
      assert (Hinf : Prim2SF t = S754_infinity false)
  end.
  { rewrite mul_spec.
    match goal with
    | |- context [SF64mul (Prim2SF ?t) _] =>
        replace (Prim2SF t) with (S754_infinity false) by (vm_compute; reflexivity)
    end.
    apply positive_ltb in Hstd.
    destruct (Prim2SF std) as [s|s| |s m e]; try destruct s;
      try destruct Hstd; reflexivity. }
  rewrite ltb_zero_l, Hinf.
  change (SFltb (S754_zero false) (S754_infinity false)) with true. cbv iota.
  unfold Py.math_ceil. now rewrite Hinf.
Qed.

End WithLibraries.

End Optimizer.

(** * The shape of a forecast *)

Module ForecastShape.

Import FloatFacts.


Section WithLibraries.

Context {L : Libraries}.




End WithLibraries.




End ForecastShape.

(** * The constant-demand scenario and other runs *)

Module Scenario.

(** The run of the optimizer on the scenario of the specification: 100 days
    of 10 units, a forecast of 10 units a day, lead time 7, service level
    0.95, holding cost 1.5, ordering cost 50. *)
Lemma scenario_run :
  calculate_inventory_optimization (L := Bench.libraries)
    Bench.scenario_history "P1" Bench.scenario_forecast 7 0x1.e666666666666p-1 1.5 50
  = Ok Bench.scenario_policy.
Proof. vm_compute. reflexivity. Qed.

(** C3, as the specification words it, fails: the order quantity of the
    scenario is not 493. *)
Lemma scenario_eoq_is_not_493 : compute_eoq 3650 1.5 50 <> Ok 493.
Proof. vm_compute. discriminate. Qed.

(** C3 (amended): in the constant-demand scenario the annual demand is 3650
    and the order quantity is [ceil(sqrt(2*3650*50/1.5)) = 494], the square
    root lying strictly between 493 and 494. *)
Theorem scenario_eoq_is_494 :
  compute_annual_demand Bench.scenario_forecast = (3650%float, "Forecasted Average")
  /\ compute_eoq 3650 1.5 50 = Ok 494
  /\ Py.math_ceil (PrimFloat.sqrt ((2 * 3650 * 50) / 1.5)) = Ok 494
  /\ 493 * 493 * 3 < 2 * 3650 * 50 * 2 < 494 * 494 * 3
  /\ exists p,
       calculate_inventory_optimization (L := Bench.libraries)
         Bench.scenario_history "P1" Bench.scenario_forecast 7
         0x1.e666666666666p-1 1.5 50 = Ok p
       /\ economic_order_quantity p = 494
       /\ safety_stock p = 0
       /\ demand_during_lead_time p = 70
       /\ reorder_point p = 70.
Proof.
  split; [vm_compute; reflexivity|].
  split; [vm_compute; reflexivity|].
  split; [vm_compute; reflexivity|].
  split; [lia|].
  exists Bench.scenario_policy. split; [exact scenario_run|].
  repeat split.
Qed.



Lemma ddlt_lead_time_prefix_witness :
  compute_ddlt [1.5; 2; 3; 4; 5]%float 7 = Py.math_ceil (Py.sum [1.5; 2; 3; 4; 5]%float).
Proof.
  refine (proj1 (proj2 (@Optimizer.ddlt_lead_time_prefix Bench.libraries
                          [1.5; 2; 3; 4; 5]%float 7 _)) _).
  - lia.
  - vm_compute. discriminate.
Defined.

Lemma insufficient_history_no_safety_stock_witness :
  compute_safety_stock (L := Bench.libraries) 1 7
    (fst (demand_variability (L := Bench.libraries) [10%float])) = Ok 0.
Proof.
  refine (proj1 (proj2 (@Optimizer.insufficient_history_no_safety_stock
                          Bench.libraries [10%float] _)) 1%float 7 _).
  - reflexivity.
  - lia.
Defined.

Lemma safety_stock_overflows_at_full_service_witness :
  compute_safety_stock (L := Bench.libraries) 1 7 2.5
  = Raise (OverflowError "cannot convert float infinity to integer").
Proof.
  refine (@Optimizer.safety_stock_overflows_at_full_service Bench.libraries
            2.5 _ _); reflexivity.
Defined.

(** The whole optimizer at the service level 1, on a history that varies:
    the request ends in the 500 of the generic handler. *)
Lemma full_service_level_run :
  calculate_inventory_optimization (L := Bench.libraries)
    (Bench.alternating_history "P1" 100 8 12 200) "P1" Bench.scenario_forecast 7 1 1.5 50
  = Raise (HTTPException 500
             (OptimizationInternalDetail "cannot convert float infinity to integer")).
Proof. vm_compute. reflexivity. Qed.

(** With a single day of history the same request succeeds, with no safety
    stock. *)
Lemma single_day_full_service_level_run :
  exists p,
    calculate_inventory_optimization (L := Bench.libraries)
      (Bench.constant_history "P1" 1 10 200) "P1" Bench.scenario_forecast 7 1 1.5 50
    = Ok p
    /\ safety_stock p = 0
    /\ demand_variability_method (assumptions_used p) = "N/A (Insufficient Data)".
Proof. eexists. split; [vm_compute; reflexivity|]. split; reflexivity. Qed.

End Scenario.

(** * Reading the data frame *)

Module DataAccess.

Lemma filter_empty_iff {A : Type} (f : A -> bool) (l : list A) :
  filter f l = [] <-> forall x, In x l -> f x = false.
Proof.
  induction l as [|a l IH]; simpl.
  - split; [intros _ x []|reflexivity].
  - destruct (f a) eqn:Ha.
    + split; [discriminate|]. intros H. rewrite (H a) in Ha by now left. discriminate.
    + rewrite IH. split.
      * intros H x [<-|Hx]; auto.
      * intros H x Hx. apply H. now right.
Qed.

Lemma filter_twice {A : Type} (f g : A -> bool) (l : list A) :
  filter g (filter f l) = filter (fun x => f x && g x) l.
Proof.
  induction l as [|a l IH]; simpl; [reflexivity|].
  destruct (f a); simpl; [destruct (g a)|]; now rewrite IH.
Qed.

Lemma fold_min_le (l : list Z) (d : Z) : fold_left Z.min l d <= d.
Proof.
  revert d. induction l as [|a l IH]; intros d; simpl; [lia|].
  specialize (IH (Z.min d a)). lia.
Qed.

Lemma fold_max_ge (l : list Z) (d : Z) : d <= fold_left Z.max l d.
Proof.
  revert d. induction l as [|a l IH]; intros d; simpl; [lia|].
  specialize (IH (Z.max d a)). lia.
Qed.

Lemma resample_nonempty (s : list (Z * float)) :
  s <> [] -> 1 <= Py.len (resample_D_sum s).
Proof.
  destruct s as [|[d0 v0] s']; [congruence|]. intros _.
  unfold resample_D_sum, Py.len. rewrite length_map, length_seq.
  pose proof (fold_min_le (map fst ((d0, v0) :: s')) d0).
  pose proof (fold_max_ge (map fst ((d0, v0) :: s')) d0).
  lia.
Qed.

Lemma get_product_data_cases (df : DataFrame) (pid : string) :
  get_product_data df pid
  = match df with
    | [] => Raise (HTTPException 503 DataUnavailableDetail)
    | _ =>
        match filter (fun r => String.eqb (Product_ID r) pid) df with
        | [] => Raise (HTTPException 404 (ProductNotFoundDetail pid))
        | _ =>
            match filter (usable_row pid) df with
            | [] => Raise (HTTPException 400 (NoValidUnitsSoldDetail pid))
            | _ => Ok (filter (usable_row pid) df,
                       resample_D_sum (units_sold_series (filter (usable_row pid) df)))
            end
        end
    end.
Proof.
  unfold get_product_data. destruct df as [|r0 df']; [reflexivity|].
  set (df := r0 :: df').
  change (filter (usable_row pid) df)
    with (filter (fun r => String.eqb (Product_ID r) pid
                           && negb (Py.isna (Units_Sold r))) df).
  rewrite <- (filter_twice (fun r => String.eqb (Product_ID r) pid)
                           (fun r => negb (Py.isna (Units_Sold r))) df).
  destruct (filter (fun r => String.eqb (Product_ID r) pid) df) as [|r1 pd];
    reflexivity.
Qed.

Lemma get_product_data_raises (df : DataFrame) (pid : string) (e : exn) :
  get_product_data df pid = Raise e ->
  e = HTTPException 503 DataUnavailableDetail
  \/ e = HTTPException 404 (ProductNotFoundDetail pid)
  \/ e = HTTPException 400 (NoValidUnitsSoldDetail pid).
Proof.
  rewrite get_product_data_cases.
  destruct df as [|r0 df']; [intros [= <-]; now left|].
  destruct (filter _ (r0 :: df')) as [|r1 pd]; [intros [= <-]; right; now left|].
  destruct (filter (usable_row pid) (r0 :: df')) as [|r2 pd'];
    [intros [= <-]; right; now right|discriminate].
Qed.

Lemma get_product_data_unavailable (df : DataFrame) (pid : string) :
  df = [] -> get_product_data df pid = Raise (HTTPException 503 DataUnavailableDetail).
Proof. now intros ->. Qed.

Lemma get_product_data_not_found (df : DataFrame) (pid : string) :
  df <> [] -> (forall r, In r df -> Product_ID r <> pid) ->
  get_product_data df pid = Raise (HTTPException 404 (ProductNotFoundDetail pid)).
Proof.
  intros Hdf Hno. rewrite get_product_data_cases.
  destruct df as [|r0 df']; [congruence|].
  replace (filter (fun r => String.eqb (Product_ID r) pid) (r0 :: df')) with (@nil row);
    [reflexivity|].
  symmetry. apply filter_empty_iff. intros r Hr. apply String.eqb_neq. now apply Hno.
Qed.

Lemma get_product_data_found (df : DataFrame) (pid : string) :
  get_product_data df pid <> Raise (HTTPException 404 (ProductNotFoundDetail pid)) ->
  df <> [] -> exists r, In r df /\ Product_ID r = pid.
Proof.
  intros Hnot Hdf.
  destruct (existsb (fun r => String.eqb (Product_ID r) pid) df) eqn:He.
  - apply existsb_exists in He as (r & Hr & Hp). apply String.eqb_eq in Hp. eauto.
  - exfalso. apply Hnot. apply get_product_data_not_found; [assumption|].
    intros r Hr Hp.
    assert (existsb (fun r => String.eqb (Product_ID r) pid) df = true).
    { apply existsb_exists. exists r. split; [assumption|]. now apply String.eqb_eq. }
    congruence.
Qed.

Lemma get_product_data_found_not_404 (df : DataFrame) (pid : string) (r : row) :
  In r df -> Product_ID r = pid ->
  get_product_data df pid <> Raise (HTTPException 404 (ProductNotFoundDetail pid)).
Proof.
  intros Hr Hp. rewrite get_product_data_cases.
  destruct df as [|r0 df']; [destruct Hr|].
  destruct (filter (fun r => String.eqb (Product_ID r) pid) (r0 :: df'))
    as [|r1 pd] eqn:Hf.
  - exfalso. pose proof (proj1 (filter_empty_iff _ _) Hf r Hr) as Hfalse.
    apply String.eqb_eq in Hp. cbv beta in Hfalse. congruence.
  - destruct (filter (usable_row pid) (r0 :: df')); discriminate.
Qed.

(** X1: when [get_product_data] succeeds, the rows it returns are exactly
    the rows of the data set that carry the product id and a number of units
    sold, in their order; there is at least one, and the daily series built
    from them has at least one entry. *)
Theorem get_product_data_ok (df : DataFrame) (pid : string)
    (product_data : DataFrame) (ts_data : list float) :
  get_product_data df pid = Ok (product_data, ts_data) ->
  product_data = filter (usable_row pid) df
  /\ product_data <> []
  /\ Forall (fun r => Product_ID r = pid /\ Py.isna (Units_Sold r) = false) product_data
  /\ ts_data = resample_D_sum (units_sold_series product_data)
  /\ 1 <= Py.len ts_data.
Proof.
  rewrite get_product_data_cases.
  destruct df as [|r0 df']; [discriminate|]. set (df := r0 :: df').
  destruct (filter (fun r => String.eqb (Product_ID r) pid) df) as [|r1 pd1];
    [discriminate|].
  destruct (filter (usable_row pid) df) as [|r2 pd'] eqn:Hf; [discriminate|].
  assert (Hlen : 1 <= Py.len (resample_D_sum (units_sold_series (r2 :: pd'))))
    by (apply resample_nonempty; discriminate).
  intros [= <- <-].
  split; [reflexivity|]. split; [discriminate|]. split; [|split; [reflexivity|]].
  - rewrite <- Hf. apply Forall_forall. intros r Hr.
    apply filter_In in Hr as [_ Hr]. unfold usable_row in Hr.
    apply andb_prop in Hr as [Hp Hn]. apply String.eqb_eq in Hp.
    apply negb_true_iff in Hn. now split.
  - exact Hlen.
Qed.

Lemma get_product_data_ok_witness :
  [ {| Date := 3; Product_ID := "P1"; Inventory_Level := 5; Units_Sold := 2 |} ]
  = filter (usable_row "P1")
      [ {| Date := 1; Product_ID := "P2"; Inventory_Level := 9; Units_Sold := 4 |};
        {| Date := 2; Product_ID := "P1"; Inventory_Level := 7; Units_Sold := nan |};
        {| Date := 3; Product_ID := "P1"; Inventory_Level := 5; Units_Sold := 2 |} ].
Proof.
  refine (proj1 (@get_product_data_ok
    [ {| Date := 1; Product_ID := "P2"; Inventory_Level := 9; Units_Sold := 4 |};
      {| Date := 2; Product_ID := "P1"; Inventory_Level := 7; Units_Sold := nan |};
      {| Date := 3; Product_ID := "P1"; Inventory_Level := 5; Units_Sold := 2 |} ]
    "P1"
    [ {| Date := 3; Product_ID := "P1"; Inventory_Level := 5; Units_Sold := 2 |} ]
    [2%float] _)).
  vm_compute. reflexivity.
Defined.

(** X2: [get_product_data] fails in three ways only: with 503 exactly when
    the data set is empty, with 404 exactly when it is not empty and no row
    carries the product id, and with 400 exactly when some row carries the id
    and every such row lacks its units sold. *)
Theorem get_product_data_errors (df : DataFrame) (pid : string) :
  (get_product_data df pid = Raise (HTTPException 503 DataUnavailableDetail)
   <-> df = [])
  /\ (get_product_data df pid = Raise (HTTPException 404 (ProductNotFoundDetail pid))
      <-> df <> [] /\ forall r, In r df -> Product_ID r <> pid)
  /\ (get_product_data df pid = Raise (HTTPException 400 (NoValidUnitsSoldDetail pid))
      <-> (exists r, In r df /\ Product_ID r = pid)
          /\ forall r, In r df -> Product_ID r = pid -> Py.isna (Units_Sold r) = true)
  /\ (forall e, get_product_data df pid = Raise e ->
      e = HTTPException 503 DataUnavailableDetail
      \/ e = HTTPException 404 (ProductNotFoundDetail pid)
      \/ e = HTTPException 400 (NoValidUnitsSoldDetail pid)).
Proof.
  rewrite get_product_data_cases.
  destruct df as [|r0 df'].
  { split; [tauto|]. split; [|split].
    - split; [discriminate|]. intros [H _]. congruence.
    - split; [discriminate|]. intros [[r [[] _]] _].
    - intros e [= <-]. now left. }
  set (df := r0 :: df').
  destruct (filter (fun r => String.eqb (Product_ID r) pid) df) as [|r1 pd] eqn:Hf1.
  { pose proof (proj1 (filter_empty_iff _ _) Hf1) as Hnone.
    assert (Hno : forall r, In r df -> Product_ID r <> pid).
    { intros r Hr. apply String.eqb_neq. now apply Hnone. }
    split; [split; discriminate|]. split; [|split].
    - split; [intros _; split; [discriminate|exact Hno]|reflexivity].
    - split; [discriminate|]. intros [[r [Hr Hp]] _]. now apply Hno in Hr.
    - intros e [= <-]. right. now left. }
  assert (Hsome : exists r, In r df /\ Product_ID r = pid).
  { exists r1. assert (Hin : In r1 (filter (fun r => String.eqb (Product_ID r) pid) df))
      by (rewrite Hf1; now left).
    apply filter_In in Hin as [Hin Hp]. apply String.eqb_eq in Hp. now split. }
  destruct (filter (usable_row pid) df) as [|r2 pd'] eqn:Hf2.
  { pose proof (proj1 (filter_empty_iff _ _) Hf2) as Hnone.
    assert (Hall : forall r, In r df -> Product_ID r = pid ->
                             Py.isna (Units_Sold r) = true).
    { intros r Hr Hp. specialize (Hnone r Hr). unfold usable_row in Hnone.
      apply String.eqb_eq in Hp. rewrite Hp in Hnone. cbn in Hnone.
      now apply negb_false_iff in Hnone. }
    split; [split; discriminate|]. split; [|split].
    - split; [discriminate|]. intros [_ Hno]. destruct Hsome as [r [Hr Hp]].
      now apply Hno in Hr.
    - split; [intros _; now split|reflexivity].
    - intros e [= <-]. right. now right. }
  assert (Hgood : exists r, In r df /\ Product_ID r = pid
                            /\ Py.isna (Units_Sold r) = false).
  { exists r2. assert (Hin : In r2 (filter (usable_row pid) df))
      by (rewrite Hf2; now left).
    apply filter_In in Hin as [Hin Hu]. unfold usable_row in Hu.
    apply andb_prop in Hu as [Hp Hn]. apply String.eqb_eq in Hp.
    apply negb_true_iff in Hn. now repeat split. }
  split; [split; discriminate|]. split; [|split].
  - split; [discriminate|]. intros [_ Hno]. destruct Hsome as [r [Hr Hp]].
    now apply Hno in Hr.
  - split; [discriminate|]. intros [_ Hall].
    destruct Hgood as (r & Hr & Hp & Hn). rewrite (Hall r Hr Hp) in Hn. discriminate.
  - discriminate.
Qed.

End DataAccess.

(** * The product listing *)

Module ProductIds.

Lemma existsb_eqb_In (x : string) (l : list string) :
  existsb (String.eqb x) l = true <-> In x l.
Proof.
  rewrite existsb_exists. split.
  - intros (y & Hy & He). apply String.eqb_eq in He. now subst.
  - intros H. exists x. split; [assumption|apply String.eqb_refl].
Qed.

Lemma unique_from_In (x : string) (l seen : list string) :
  In x (unique_from seen l) <-> In x l /\ ~ In x seen.
Proof.
  revert seen. induction l as [|a l IH]; intros seen; simpl.
  - tauto.
  - destruct (existsb (String.eqb a) seen) eqn:Ha.
    + apply existsb_eqb_In in Ha. rewrite IH. split.
      * intros [H1 H2]. tauto.
      * intros [[<-|H1] H2]; tauto.
    + assert (Hna : ~ In a seen).
      { intros H. apply existsb_eqb_In in H. congruence. }
      simpl. rewrite IH. simpl. split.
      * intros [<-|[H1 H2]]; tauto.
      * intros [[<-|H1] H2]; [now left|].
        destruct (string_dec a x) as [->|Hne]; [now left|]. right. tauto.
Qed.

Lemma unique_from_NoDup (l seen : list string) : NoDup (unique_from seen l).
Proof.
  revert seen. induction l as [|a l IH]; intros seen; simpl; [constructor|].
  destruct (existsb (String.eqb a) seen); [apply IH|].
  constructor; [|apply IH].
  rewrite unique_from_In. simpl. tauto.
Qed.

(** X3: [get_product_ids] fails, with 503, exactly on an empty data set;
    otherwise it lists every product id of the data set once, and the ids it
    lists are exactly those [get_product_data] does not answer with 404. *)
Theorem product_ids_listing (df : DataFrame) :
  match get_product_ids df with
  | Failure status_code detail =>
      df = [] /\ status_code = 503
      /\ detail = "Inventory data is currently unavailable."
  | Success ids =>
      df <> [] /\ NoDup ids
      /\ (forall pid, In pid ids <-> exists r, In r df /\ Product_ID r = pid)
      /\ (forall pid,
          In pid ids
          <-> get_product_data df pid
              <> Raise (HTTPException 404 (ProductNotFoundDetail pid)))
  end.
Proof.
  destruct df as [|r0 df']; [repeat split|].
  set (df := r0 :: df').
  change (get_product_ids df) with (Success (unique (map Product_ID df))).
  assert (Hin : forall pid, In pid (unique (map Product_ID df))
                            <-> exists r, In r df /\ Product_ID r = pid).
  { intros pid. unfold unique. rewrite unique_from_In, in_map_iff. simpl.
    split; [intros [(r & Hp & Hr) _]; eauto|intros (r & Hr & Hp); eauto]. }
  split; [discriminate|]. split; [apply unique_from_NoDup|]. split; [exact Hin|].
  intros pid. rewrite Hin. split.
  - intros (r & Hr & Hp). eapply DataAccess.get_product_data_found_not_404; eassumption.
  - intros Hnot. apply DataAccess.get_product_data_found; [assumption|discriminate].
Qed.

End ProductIds.

(** * More on the forecast engine *)

Module ForecastFacts.

Import SF FloatFacts.

Section WithLibraries.

Context {L : Libraries}.

Lemma min_data_points_at_least_10 (model_type : string) (sp : Z) :
  10 <= min_data_points model_type sp.
Proof. unfold min_data_points. lia. Qed.

Lemma forecast_demand_ok_fit (ts : list float) (model_type : string) (days sp : Z)
    (forecast : list float) :
  forecast_demand ts model_type days sp = Ok forecast ->
  fit_and_project ts model_type days sp = Ok forecast.
Proof.
  unfold forecast_demand.
  destruct (_ <? _); [discriminate|]. destruct (_ <=? _); [discriminate|].
  destruct (fit_and_project ts model_type days sp); [now intros [= <-]|discriminate].
Qed.

Lemma fit_and_project_not_negative (ts : list float) (model_type : string)
    (days sp : Z) (forecast : list float) :
  fit_and_project ts model_type days sp = Ok forecast ->
  Forall (fun v => (v <? 0)%float = false) forecast.
Proof.
  unfold fit_and_project.
  destruct (if String.eqb model_type "ARIMA" then _ else _) as [projections|e];
    cbn [bind]; [|discriminate].
  intros [= <-]. rewrite map_map. apply Forall_map, Forall_forall.
  intros x _. apply clipped_rounded_not_negative.
Qed.

Lemma forecast_values_not_negative (ts : list float) (model_type : string)
    (days sp : Z) (forecast : list float) :
  forecast_demand ts model_type days sp = Ok forecast ->
  Forall (fun v => (v <? 0)%float = false) forecast.
Proof.
  intros H. eapply fit_and_project_not_negative, forecast_demand_ok_fit. exact H.
Qed.

(** X4: the outcomes of [forecast_demand]. The two 400s come from the
    validation alone and do not depend on the libraries: the insufficient-data
    one exactly when the series is shorter than the threshold (never below
    10), the horizon one exactly when the series is long enough and the
    horizon is not positive. Past the validation the call succeeds exactly
    when the fitting block does, with its result, and every failure of the
    block, whatever it is, is answered with the same 500. *)
Theorem forecast_demand_outcomes (ts : list float) (model_type : string)
    (days sp : Z) :
  10 <= min_data_points model_type sp
  /\ (forecast_demand ts model_type days sp
      = Raise (HTTPException 400
                 (InsufficientHistoryDetail (Py.len ts) model_type
                    (min_data_points model_type sp)))
      <-> Py.len ts < min_data_points model_type sp)
  /\ (forecast_demand ts model_type days sp = Raise (HTTPException 400 ForecastDaysDetail)
      <-> min_data_points model_type sp <= Py.len ts /\ days <= 0)
  /\ (forall forecast,
      forecast_demand ts model_type days sp = Ok forecast
      <-> min_data_points model_type sp <= Py.len ts /\ 0 < days
          /\ fit_and_project ts model_type days sp = Ok forecast)
  /\ (forecast_demand ts model_type days sp
      = Raise (HTTPException 500 (ForecastInternalDetail model_type))
      <-> min_data_points model_type sp <= Py.len ts /\ 0 < days
          /\ exists e, fit_and_project ts model_type days sp = Raise e).
Proof.
  split; [apply min_data_points_at_least_10|].
  destruct (Z_lt_ge_dec (Py.len ts) (min_data_points model_type sp)) as [Hs|Hl].
  { rewrite ForecastErrors.forecast_demand_short by assumption.
    split; [tauto|]. split; [|split].
    - split; [discriminate|lia].
    - intros forecast. split; [discriminate|lia].
    - split; [discriminate|lia]. }
  destruct (Z_le_gt_dec days 0) as [Hd|Hd].
  { rewrite ForecastErrors.forecast_demand_bad_horizon by lia.
    split; [split; [discriminate|lia]|]. split; [|split].
    - split; [lia|reflexivity].
    - intros forecast. split; [discriminate|lia].
    - split; [discriminate|lia]. }
  rewrite ForecastErrors.forecast_demand_fit by lia.
  destruct (fit_and_project ts model_type days sp) as [l|e].
  - split; [split; [discriminate|lia]|]. split; [|split].
    + split; [discriminate|lia].
    + intros forecast. split.
      * intros [= <-]. repeat split; lia.
      * intros (_ & _ & [= <-]). reflexivity.
    + split; [discriminate|]. intros (_ & _ & e & He). discriminate.
  - split; [split; [discriminate|lia]|]. split; [|split].
    + split; [discriminate|lia].
    + intros forecast. split; [discriminate|]. intros (_ & _ & He). discriminate.
    + split; [|reflexivity]. intros _. repeat split; try lia. now exists e.
Qed.

(** X5: no forecast the engine returns holds a negative value, whatever the
    model type and whatever the fit projected. *)
Theorem forecast_never_negative (ts : list float) (model_type : string)
    (days sp : Z) (forecast : list float) :
  forecast_demand ts model_type days sp = Ok forecast ->
  Forall (fun v => (v <? 0)%float = false) forecast.
Proof.
  unfold forecast_demand.
  destruct (_ <? _); [discriminate|]. destruct (_ <=? _); [discriminate|].
  destruct (fit_and_project ts model_type days sp) as [l|e] eqn:Hfit; [|discriminate].
  intros [= <-]. revert Hfit. unfold fit_and_project.
  destruct (if String.eqb model_type "ARIMA" then _ else _) as [projections|e];
    cbn [bind]; [|discriminate].
  intros [= <-]. rewrite map_map. apply Forall_forall.
  intros v Hv. apply in_map_iff in Hv as (x & <- & _).
  apply not_negative_ltb, np_round_not_negative, clip_negative_not_negative.
Qed.

(** X6: on a series of at least [max(10, 2*seasonal_periods)] observations
    and for a positive horizon, whenever the exponential-smoothing fit
    succeeds the engine returns its projections in their order, clipped at 0
    and rounded: exactly [horizon] values, each a non-negative integer. *)
Theorem exp_smoothing_forecast_shape (ts : list float) (horizon sp : Z) :
  exp_smoothing_contract ->
  10 <= Py.len ts -> 2 * sp <= Py.len ts -> 0 < horizon ->
  (forall projections,
     exp_smoothing_forecast ts sp horizon = Ok projections ->
     forecast_demand ts "ExponentialSmoothing" horizon sp
     = Ok (map Py.np_round (map clip_negative projections)))
  /\ (forall forecast,
        forecast_demand ts "ExponentialSmoothing" horizon sp = Ok forecast ->
        Py.len forecast = horizon
        /\ Forall (fun v => exists n, 0 <= n /\ Py.integer_value v = Some n) forecast).
Proof.
  intros Hlib Hlen Hlen2 Hh.
  assert (Hmin : min_data_points "ExponentialSmoothing" sp <= Py.len ts).
  { unfold min_data_points. cbn [String.eqb Ascii.eqb Bool.eqb]. lia. }
  rewrite ForecastErrors.forecast_demand_fit by assumption.
  unfold fit_and_project. cbn [String.eqb Ascii.eqb Bool.eqb].
  destruct (exp_smoothing_forecast ts sp horizon) as [projections|e] eqn:Hfit.
  - cbn [bind]. split.
    + intros p [= <-]. reflexivity.
    + intros forecast [= <-].
      destruct (Hlib _ _ _ _ Hh Hfit) as [Hn Hfin]. split.
      * unfold Py.len in *. now rewrite !length_map.
      * rewrite map_map. apply Forall_map.
        eapply Forall_impl; [|exact Hfin].
        intros v Hv. now apply np_round_clip_integer.
  - split; [discriminate|]. intros forecast. destruct e; discriminate.
Qed.

End WithLibraries.

Lemma forecast_never_negative_witness :
  Forall (fun v => (v <? 0)%float = false) [10; 10; 10]%float.
Proof.
  refine (@forecast_never_negative Bench.libraries (repeat 10%float 12) "ARIMA" 3 7
            [10; 10; 10]%float _).
  vm_compute. reflexivity.
Defined.

Lemma bench_exp_smoothing_contract : exp_smoothing_contract (L := Bench.libraries).
Proof.
  intros ts sp steps projections Hsteps.
  cbn [exp_smoothing_forecast Bench.libraries].
  unfold Bench.seasonal_projection, Bench.mean_projection.
  destruct (sp <=? 1); [discriminate|].
  destruct (Py.isfinite (Bench.mean ts)) eqn:Hfin; [|discriminate].
  intros [= <-]. split.
  - unfold Py.len. rewrite repeat_length. lia.
  - apply Forall_forall. intros v Hv. apply repeat_spec in Hv. now subst.
Qed.

Lemma exp_smoothing_forecast_shape_witness :
  Py.len [10; 10; 10]%float = 3
  /\ Forall (fun v => exists n, 0 <= n /\ Py.integer_value v = Some n) [10; 10; 10]%float.
Proof.
  refine (proj2 (@exp_smoothing_forecast_shape Bench.libraries (repeat 10%float 14) 3 7
                   bench_exp_smoothing_contract _ _ _) [10; 10; 10]%float _).
  - vm_compute. discriminate.
  - vm_compute. discriminate.
  - lia.
  - vm_compute. reflexivity.
Defined.

End ForecastFacts.

(** * More on the suggestion policy *)

Module SuggestionFacts.

(** X7: at or below the reorder point, and with a safety stock that is not
    negative, an order is always suggested: of the order quantity when that
    is positive, otherwise of the units that lift the inventory to the
    reorder point plus the safety stock. The one exception is an inventory
    exactly at the reorder point with no order quantity and no safety stock,
    where the review message is given. *)
Theorem suggest_at_or_below_reorder_point (cur rop eoq ss : Z) :
  cur <= rop -> 0 <= ss ->
  (0 < eoq -> suggest cur rop eoq ss = OrderUnits eoq cur rop)
  /\ (eoq <= 0 -> cur < rop \/ 0 < ss ->
      suggest cur rop eoq ss = OrderUnits (rop + ss - cur) cur rop
      /\ 0 < rop + ss - cur)
  /\ (eoq <= 0 -> cur = rop -> ss = 0 -> suggest cur rop eoq ss = ReviewParameters)
  /\ (is_order (suggest cur rop eoq ss) = false <-> eoq <= 0 /\ cur = rop /\ ss = 0).
Proof.
  intros Hcur Hss. unfold suggest.
  replace (cur <=? rop) with true by (symmetry; apply Z.leb_le; lia).
  destruct (0 <? eoq) eqn:He.
  - apply Z.ltb_lt in He.
    replace (Z.max 0 eoq) with eoq by lia.
    replace (0 <? eoq) with true by (symmetry; apply Z.ltb_lt; lia).
    split; [reflexivity|]. split; [lia|]. split; [lia|].
    cbn [is_order]. split; [discriminate|lia].
  - apply Z.ltb_ge in He.
    destruct (Z_lt_ge_dec 0 (rop + ss - cur)) as [Hq|Hq].
    + replace (Z.max 0 (rop + ss - cur)) with (rop + ss - cur) by lia.
      replace (0 <? rop + ss - cur) with true by (symmetry; apply Z.ltb_lt; lia).
      split; [lia|]. split; [intros _ _; split; [reflexivity|lia]|]. split; [lia|].
      cbn [is_order]. split; [discriminate|lia].
    + replace (Z.max 0 (rop + ss - cur)) with 0 by lia.
      change (0 <? 0) with false. cbv iota.
      split; [lia|]. split; [lia|]. split; [reflexivity|].
      cbn [is_order]. split; [lia|reflexivity].
Qed.

Lemma suggest_at_or_below_reorder_point_witness :
  suggest 40 70 0 12 = OrderUnits (70 + 12 - 40) 40 70 /\ 0 < 70 + 12 - 40.
Proof.
  refine (proj1 (proj2 (@suggest_at_or_below_reorder_point 40 70 0 12 _ _)) _ _); lia.
Defined.

Lemma order_text_prefix (q c r : Z) :
  String.prefix "Order " (suggestion_text (OrderUnits q c r)) = true.
Proof.
  unfold suggestion_text.
  generalize (string_of_Z q ++ " units (Current: " ++ string_of_Z c
              ++ ", ROP: " ++ string_of_Z r ++ ").")%string.
  intros t. cbn. now destruct t.
Qed.

Lemma overstock_text_prefix (k : suggestion_kind) :
  String.prefix "Potential overstock" (suggestion_text k) = is_overstock k.
Proof. destruct k; vm_compute; reflexivity. Qed.

Lemma order_text_prefix_iff (k : suggestion_kind) :
  String.prefix "Order " (suggestion_text k) = is_order k.
Proof.
  destruct k as [|q c r| |c r s]; try reflexivity. apply order_text_prefix.
Qed.

(** X8: the text of a suggestion tells its kind: it starts with
    "Potential overstock" exactly for the overstock warning and with "Order "
    exactly for an order, and the two maintain messages are the texts of the
    two remaining kinds only. *)
Theorem suggestion_text_reveals_kind (k : suggestion_kind) :
  String.prefix "Potential overstock" (suggestion_text k) = is_overstock k
  /\ String.prefix "Order " (suggestion_text k) = is_order k
  /\ (suggestion_text k = "Maintain current stock." <-> k = MaintainStock)
  /\ (suggestion_text k = "Maintain current stock (Consider reviewing EOQ parameters)."
      <-> k = ReviewParameters).
Proof.
  destruct k as [|q c r| |c r s]; (split; [vm_compute; reflexivity|]).
  - split; [reflexivity|]. split; split; intros H; try reflexivity; discriminate H.
  - split.
    + unfold suggestion_text.
      generalize (string_of_Z q ++ " units (Current: " ++ string_of_Z c
                  ++ ", ROP: " ++ string_of_Z r ++ ").")%string.
      intros t. cbn. now destruct t.
    + split; split; intros H; cbn in H; discriminate H.
  - split; [reflexivity|]. split; split; intros H; try reflexivity; discriminate H.
  - split; [reflexivity|]. split; split; intros H; cbn in H; discriminate H.
Qed.

End SuggestionFacts.

(** * More on the inventory optimizer *)

Module OptimizerFacts.

Import SF FloatFacts.

(** ** Which exceptions the steps raise *)

Lemma numeric_errors_plain (e : exn) :
  In e numeric_errors -> is_http_exception e = false.
Proof.
  unfold numeric_errors. cbn [In].
  intros [<- | [<- | [<- | [<- | []]]]]; reflexivity.
Qed.

Lemma math_ceil_raises (x : float) (e : exn) :
  Py.math_ceil x = Raise e -> In e numeric_errors.
Proof.
  unfold Py.math_ceil, numeric_errors.
  destruct (Prim2SF x); intros [= <-]; cbn [In]; tauto.
Qed.

Lemma int_of_float_raises (x : float) (e : exn) :
  Py.int_of_float x = Raise e -> In e numeric_errors.
Proof.
  unfold Py.int_of_float, numeric_errors.
  destruct (Prim2SF x); intros [= <-]; cbn [In]; tauto.
Qed.

Lemma math_sqrt_raises (x : float) (e : exn) :
  Py.math_sqrt x = Raise e -> In e numeric_errors.
Proof.
  unfold Py.math_sqrt, numeric_errors.
  destruct (x <? 0)%float; intros [= <-]; cbn [In]; tauto.
Qed.

Lemma math_sqrt_int_raises (n : Z) (e : exn) :
  Py.math_sqrt_int n = Raise e -> In e numeric_errors.
Proof.
  unfold Py.math_sqrt_int, Py.float_of_int.
  destruct (Py.Z2SF n); cbn [bind]; try apply math_sqrt_raises.
  intros [= <-]. unfold numeric_errors. cbn [In]. tauto.
Qed.

Lemma compute_ddlt_raises (fc : list float) (lead : Z) (e : exn) :
  compute_ddlt fc lead = Raise e -> In e numeric_errors.
Proof. apply math_ceil_raises. Qed.

Lemma compute_eoq_raises (a h o : float) (e : exn) :
  compute_eoq a h o = Raise e -> In e numeric_errors.
Proof.
  unfold compute_eoq. destruct (_ || _ || _); [discriminate|].
  destruct (Py.math_sqrt _) as [r|e'] eqn:Hs; cbn [bind].
  - apply math_ceil_raises.
  - intros [= <-]. eapply math_sqrt_raises; eassumption.
Qed.

Lemma compute_current_inventory_raises (hist : DataFrame) (e : exn) :
  compute_current_inventory hist = Raise e -> In e numeric_errors.
Proof.
  unfold compute_current_inventory.
  destruct (rev hist) as [|latest rest]; [discriminate|].
  destruct (Py.isna _); [discriminate|apply int_of_float_raises].
Qed.

Section WithLibraries.

Context {L : Libraries}.

Lemma compute_safety_stock_raises (sl : float) (lead : Z) (std : float) (e : exn) :
  compute_safety_stock sl lead std = Raise e -> In e numeric_errors.
Proof.
  unfold compute_safety_stock.
  destruct (Py.math_sqrt_int lead) as [root|e'] eqn:Hr; cbn [bind].
  - destruct (0 <? _)%float; [apply math_ceil_raises|discriminate].
  - intros [= <-]. eapply math_sqrt_int_raises; eassumption.
Qed.

(** Past the data access the body raises only what the numeric primitives
    raise. *)
Lemma optimization_body_after_data (df : DataFrame) (pid : string) (fc : list float)
    (lead : Z) (sl h o : float) (data : DataFrame * list float) (e : exn) :
  get_product_data df pid = Ok data ->
  optimization_body df pid fc lead sl h o = Raise e ->
  In e numeric_errors.
Proof.
  intros Hdata. unfold optimization_body. rewrite Hdata. cbn [bind]. cbv zeta.
  destruct (demand_variability _) as [std method].
  destruct (compute_safety_stock sl lead std) as [ss|e1] eqn:H1; cbn [bind];
    [|intros [= <-]; eapply compute_safety_stock_raises; eassumption].
  destruct (compute_ddlt fc lead) as [ddlt|e2] eqn:H2; cbn [bind];
    [|intros [= <-]; eapply compute_ddlt_raises; eassumption].
  destruct (compute_annual_demand fc) as [annual amethod].
  destruct (compute_eoq annual h o) as [eoq|e3] eqn:H3; cbn [bind];
    [|intros [= <-]; eapply compute_eoq_raises; eassumption].
  destruct (compute_current_inventory (fst data)) as [cur|e4] eqn:H4; cbn [bind];
    [discriminate|intros [= <-]; eapply compute_current_inventory_raises; eassumption].
Qed.

Lemma optimization_body_data_error (df : DataFrame) (pid : string) (fc : list float)
    (lead : Z) (sl h o : float) (e : exn) :
  get_product_data df pid = Raise e ->
  optimization_body df pid fc lead sl h o = Raise e.
Proof. intros He. unfold optimization_body. now rewrite He. Qed.

(** What [calculate_inventory_optimization] raises: the error of the data
    access as it is, or a 500 around a numeric error of the body. *)
Lemma optimization_raise_cases (df : DataFrame) (pid : string) (fc : list float)
    (lead : Z) (sl h o : float) (e : exn) :
  calculate_inventory_optimization df pid fc lead sl h o = Raise e ->
  get_product_data df pid = Raise e
  \/ exists data e0,
       get_product_data df pid = Ok data
       /\ optimization_body df pid fc lead sl h o = Raise e0
       /\ In e0 numeric_errors
       /\ e = HTTPException 500 (OptimizationInternalDetail (exn_message e0)).
Proof.
  unfold calculate_inventory_optimization.
  destruct (get_product_data df pid) as [data|e1] eqn:Hdata.
  - destruct (optimization_body df pid fc lead sl h o) as [p|e0] eqn:Hb; [discriminate|].
    pose proof (optimization_body_after_data _ _ _ _ _ _ _ Hdata Hb) as Hnum.
    pose proof (@numeric_errors_plain _ Hnum) as Hplain.
    intros H. right. exists data, e0.
    split; [reflexivity|]. split; [reflexivity|]. split; [exact Hnum|].
    destruct e0; try discriminate Hplain; now injection H as <-.
  - rewrite (@optimization_body_data_error df pid fc lead sl h o _ Hdata).
    destruct (@DataAccess.get_product_data_raises _ _ _ Hdata) as [-> | [-> | ->]];
      intros [= <-]; now left.
Qed.

(** X9: the failures of [calculate_inventory_optimization]. An error of the
    data access (503, 404 or 400) leaves the function as it is. Once the data
    is there, a failure is a failure of the body with one of the four errors
    of the numeric primitives ("math domain error", "int too large to convert
    to float", "cannot convert float NaN to integer", "cannot convert float
    infinity to integer"), and what leaves the function is a 500 whose detail
    carries the message of that very error. No other exception leaves the
    function. *)
Theorem optimization_failures (df : DataFrame) (pid : string) (fc : list float)
    (lead : Z) (sl h o : float) :
  (forall e, get_product_data df pid = Raise e ->
   calculate_inventory_optimization df pid fc lead sl h o = Raise e)
  /\ (forall data e,
      get_product_data df pid = Ok data ->
      calculate_inventory_optimization df pid fc lead sl h o = Raise e ->
      exists e0,
        optimization_body df pid fc lead sl h o = Raise e0
        /\ (e0 = ValueError "math domain error"
            \/ e0 = OverflowError "int too large to convert to float"
            \/ e0 = ValueError "cannot convert float NaN to integer"
            \/ e0 = OverflowError "cannot convert float infinity to integer")
        /\ e = HTTPException 500 (OptimizationInternalDetail (exn_message e0))
        /\ detail_text (OptimizationInternalDetail (exn_message e0))
           = ("An internal error occurred while calculating optimization metrics: "
              ++ exn_message e0)%string)
  /\ (forall data e0,
      get_product_data df pid = Ok data ->
      optimization_body df pid fc lead sl h o = Raise e0 ->
      calculate_inventory_optimization df pid fc lead sl h o
      = Raise (HTTPException 500 (OptimizationInternalDetail (exn_message e0))))
  /\ (forall e,
      calculate_inventory_optimization df pid fc lead sl h o = Raise e ->
      exists status_code d,
        e = HTTPException status_code d
        /\ (status_code = 503 \/ status_code = 404 \/ status_code = 400
            \/ status_code = 500)).
Proof.
  split; [|split; [|split]].
  - intros e He. unfold calculate_inventory_optimization.
    rewrite (@optimization_body_data_error df pid fc lead sl h o _ He).
    destruct (@DataAccess.get_product_data_raises _ _ _ He) as [-> | [-> | ->]];
      reflexivity.
  - intros data e Hdata He.
    destruct (@optimization_raise_cases _ _ _ _ _ _ _ _ He)
      as [Hraise | (data' & e0 & _ & Hb & Hnum & ->)]; [congruence|].
    exists e0. split; [exact Hb|]. split; [|split; reflexivity].
    unfold numeric_errors in Hnum. cbn [In] in Hnum.
    destruct Hnum as [H | [H | [H | [H | []]]]]; symmetry in H; tauto.
  - intros data e0 Hdata Hb.
    pose proof (@numeric_errors_plain _ (optimization_body_after_data _ _ _ _ _ _ _ Hdata Hb))
      as Hplain.
    unfold calculate_inventory_optimization. rewrite Hb.
    destruct e0; [discriminate Hplain|reflexivity..].
  - intros e He.
    destruct (@optimization_raise_cases _ _ _ _ _ _ _ _ He)
      as [Hraise | (data' & e0 & _ & _ & _ & ->)]; [|eauto 8].
    destruct (@DataAccess.get_product_data_raises _ _ _ Hraise) as [-> | [-> | ->]];
      eauto 8.
Qed.


(** ** Lead times that are not positive *)

Lemma float_of_int_small_negative (p : positive) :
  Z.pos p < 2 ^ 53 ->
  exists x, Py.float_of_int (Z.neg p) = Ok x /\ (x <? 0)%float = true.
Proof.
  intros Hp. exists (SF2Prim (binary_round prec emax true p 0)). split.
  - unfold Py.float_of_int, Py.Z2SF. cbn [binary_normalize].
    rewrite binary_round_small by assumption. reflexivity.
  - rewrite ltb_zero_r, Prim2SF_SF2Prim by now apply binary_round_small_valid.
    rewrite binary_round_small by assumption. reflexivity.
Qed.

Lemma math_sqrt_int_negative (n : Z) :
  - 2 ^ 53 < n < 0 -> Py.math_sqrt_int n = Raise (ValueError "math domain error").
Proof.
  intros Hn. destruct n as [|p|p]; try lia.
  destruct (@float_of_int_small_negative p) as (x & Hx & Hneg); [lia|].
  unfold Py.math_sqrt_int. rewrite Hx. cbn [bind]. unfold Py.math_sqrt.
  now rewrite Hneg.
Qed.

Lemma zero_product_not_positive (x y : float) : (0 <? x * 0 * y)%float = false.
Proof.
  rewrite ltb_zero_l, !mul_spec, Prim2SF_zero.
  destruct (Prim2SF x) as [s|s| |s m e], (Prim2SF y) as [s'|s'| |s' m' e'];
    try destruct s; try destruct s'; reflexivity.
Qed.

Lemma slice_to_zero {A : Type} (l : list A) : Py.slice_to l (Z.min (Py.len l) 0) = [].
Proof.
  unfold Py.slice_to, Py.len.
  replace (Z.min (Z.of_nat (List.length l)) 0) with 0 by lia. reflexivity.
Qed.

(** X10: a negative lead time (above [-2^53]) makes the optimizer fail for
    every product that has data: the square root refuses it, and the request
    ends in a 500 with the message "math domain error". *)
Theorem negative_lead_time_fails (df : DataFrame) (pid : string) (fc : list float)
    (lead : Z) (sl h o : float) (data : DataFrame * list float) :
  - 2 ^ 53 < lead < 0 ->
  get_product_data df pid = Ok data ->
  calculate_inventory_optimization df pid fc lead sl h o
  = Raise (HTTPException 500 (OptimizationInternalDetail "math domain error")).
Proof.
  intros Hlead Hdata.
  unfold calculate_inventory_optimization, optimization_body.
  rewrite Hdata. cbn [bind]. cbv zeta.
  destruct (demand_variability _) as [std method].
  unfold compute_safety_stock. rewrite math_sqrt_int_negative by assumption.
  reflexivity.
Qed.

(** X11: with a lead time of 0 every returned policy has a safety stock, a
    demand during lead time and a reorder point of 0, whatever the forecast,
    the service level and the history. *)
Theorem zero_lead_time_policy (df : DataFrame) (pid : string) (fc : list float)
    (sl h o : float) (p : InventoryPolicy) :
  calculate_inventory_optimization df pid fc 0 sl h o = Ok p ->
  safety_stock p = 0 /\ demand_during_lead_time p = 0 /\ reorder_point p = 0.
Proof.
  intros H.
  destruct (Optimizer.optimization_ok_inv _ _ _ _ _ _ _ H)
    as (data & ss & ddlt & eoq & cur & _ & Hss & Hddlt & _ & _ & _ & -> & -> & _
        & -> & _).
  assert (Hss0 : ss = 0).
  { revert Hss. unfold compute_safety_stock.
    replace (Py.math_sqrt_int 0) with (Ok 0%float) by (vm_compute; reflexivity).
    cbn [bind]. rewrite zero_product_not_positive. now intros [= <-]. }
  assert (Hddlt0 : ddlt = 0).
  { revert Hddlt. unfold compute_ddlt. rewrite slice_to_zero.
    vm_compute. now intros [= <-]. }
  subst. repeat split.
Qed.

(** ** An empty forecast *)

Lemma optimization_ok_annual_method (df : DataFrame) (pid : string) (fc : list float)
    (lead : Z) (sl h o : float) (p : InventoryPolicy) :
  calculate_inventory_optimization df pid fc lead sl h o = Ok p ->
  annual_demand_method (assumptions_used p) = snd (compute_annual_demand fc).
Proof.
  unfold calculate_inventory_optimization, optimization_body.
  destruct (get_product_data df pid) as [data|e]; cbn [bind];
    [|destruct e; discriminate].
  cbv zeta.
  destruct (demand_variability _) as [std method].
  destruct (compute_safety_stock sl lead std) as [ss|e]; cbn [bind];
    [|destruct e; discriminate].
  destruct (compute_ddlt fc lead) as [ddlt|e]; cbn [bind];
    [|destruct e; discriminate].
  destruct (compute_annual_demand fc) as [annual amethod].
  destruct (compute_eoq annual h o) as [eoq|e]; cbn [bind];
    [|destruct e; discriminate].
  destruct (compute_current_inventory (fst data)) as [cur|e]; cbn [bind];
    [|destruct e; discriminate].
  now intros [= <-].
Qed.

(** X12: on an empty forecast every returned policy has a demand during
    lead time and an order quantity of 0, a reorder point equal to the safety
    stock, and the annual-demand method "N/A (Empty Forecast)". *)
Theorem empty_forecast_policy (df : DataFrame) (pid : string) (lead : Z)
    (sl h o : float) (p : InventoryPolicy) :
  calculate_inventory_optimization df pid [] lead sl h o = Ok p ->
  demand_during_lead_time p = 0
  /\ economic_order_quantity p = 0
  /\ reorder_point p = safety_stock p
  /\ annual_demand_method (assumptions_used p) = "N/A (Empty Forecast)".
Proof.
  intros H. pose proof (optimization_ok_annual_method _ _ _ _ _ _ _ H) as Hm.
  destruct (Optimizer.optimization_ok_inv _ _ _ _ _ _ _ H)
    as (data & ss & ddlt & eoq & cur & _ & _ & Hddlt & Heoq & _ & _ & -> & -> & ->
        & -> & _).
  assert (Hddlt0 : ddlt = 0).
  { revert Hddlt. unfold compute_ddlt, Py.slice_to.
    destruct (_ <? 0); rewrite firstn_nil; vm_compute; now intros [= <-]. }
  assert (Heoq0 : eoq = 0).
  { revert Heoq. cbn [compute_annual_demand Py.len List.length Z.of_nat Z.ltb
                       Z.compare fst].
    unfold compute_eoq.
    replace (0 <=? 0)%float with true by reflexivity. cbn [orb].
    now intros [= <-]. }
  subst. repeat split. exact Hm.
Qed.

(** ** Degenerate parameters *)

(** X13: with an ordering cost of zero the order quantity is 0, for every
    positive annual demand whose double is finite and every positive holding
    cost. *)
Theorem free_ordering_no_eoq (annual h o : float) :
  (0 <? annual)%float = true -> Py.isfinite (2 * annual) = true ->
  (0 <? h)%float = true -> (o =? 0)%float = true ->
  compute_eoq annual h o = Ok 0.
Proof.
  intros Ha Hfin Hh Ho.
  assert (Ho' : (0 <=? o)%float = true).
  { revert Ho. rewrite eqb_spec, leb_zero_l, Prim2SF_zero.
    destruct (Prim2SF o) as [s|s| |s m e]; try destruct s;
      intros Ho; try discriminate Ho; reflexivity. }
  unfold compute_eoq.
  rewrite (Optimizer.ltb_leb_false Ha), (Optimizer.ltb_leb_false Hh),
    (Optimizer.leb_ltb_false Ho').
  cbn [orb].
  assert (Hzero : exists s, Prim2SF o = S754_zero s).
  { revert Ho. rewrite eqb_spec, Prim2SF_zero.
    destruct (Prim2SF o) as [s|s| |s m e]; [eauto| | |];
      try destruct s; intros Ho; discriminate Ho. }
  assert (Hz : exists s, Prim2SF ((2 * annual * o) / h)%float = S754_zero s).
  { rewrite div_spec, mul_spec.
    destruct Hzero as [so ->].
    unfold Py.isfinite in Hfin. apply positive_ltb in Hh.
    unfold SF64div, SF64mul.
    destruct (Prim2SF (2 * annual)) as [s1|s1| |s1 m1 e1]; try discriminate Hfin;
      cbn [SFmul];
      (destruct (Prim2SF h) as [s3|s3| |s3 m3 e3]; try destruct s3;
       try destruct Hh; cbn [SFdiv]; eauto). }
  destruct Hz as [s Hz]. unfold Py.math_sqrt.
  rewrite ltb_zero_r, Hz.
  replace (SFltb (S754_zero s) (S754_zero false)) with false by now destruct s.
  cbn [bind]. unfold Py.math_ceil. rewrite sqrt_spec, Hz. reflexivity.
Qed.

Lemma free_ordering_no_eoq_witness : compute_eoq 3650 1.5 0 = Ok 0.
Proof.
  refine (@free_ordering_no_eoq 3650 1.5 0 _ _ _ _); reflexivity.
Defined.

Lemma SFmul_not_positive (x y : spec_float) :
  not_positive x -> not_negative y -> not_positive (SFmul prec emax x y).
Proof.
  destruct x as [sx|sx| |sx mx ex], y as [sy|sy| |sy my ey];
    try destruct sx; try destruct sy; simpl; try tauto.
  intros _ _.
  pose proof (binary_round_aux_sign true (Z.pos (mx * my)) (ex + ey) loc_Exact) as Hs.
  zdef.
  destruct (binary_round_aux prec emax true (Z.pos (mx * my)) (ex + ey) loc_Exact);
    subst; exact I.
Qed.

Lemma not_positive_ltb (x : float) :
  not_positive (Prim2SF x) <-> (0 <? x)%float = false.
Proof.
  rewrite ltb_zero_l.
  destruct (Prim2SF x) as [s|s| |s m e]; try destruct s; cbv; intuition congruence.
Qed.

Lemma math_sqrt_int_not_negative (n : Z) (root : float) :
  Py.math_sqrt_int n = Ok root -> not_negative (Prim2SF root).
Proof.
  unfold Py.math_sqrt_int.
  destruct (Py.float_of_int n) as [x|e]; cbn [bind]; [|discriminate].
  unfold Py.math_sqrt. destruct (x <? 0)%float; [discriminate|].
  intros H. injection H as Hr. rewrite <- Hr, sqrt_spec.
  apply SFsqrt_not_negative.
Qed.

(** X14: a service level whose quantile is not above zero (a level of one
    half or less) holds no safety stock: whenever the variability is not
    negative, a computed safety stock is 0, and for a lead time between 1 and
    [2^53] it is computed. *)
Theorem low_service_level_no_safety_stock (sl : float) (lead : Z) (std : float) :
  (0 <? norm_ppf sl)%float = false -> (std <? 0)%float = false ->
  (forall ss, compute_safety_stock sl lead std = Ok ss -> ss = 0)
  /\ (0 < lead < 2 ^ 53 -> compute_safety_stock sl lead std = Ok 0).
Proof.
  intros Hz Hstd.
  assert (Hraw : forall root, Py.math_sqrt_int lead = Ok root ->
                 (0 <? norm_ppf sl * root * std)%float = false).
  { intros root Hroot. apply not_positive_ltb. rewrite !mul_spec.
    apply SFmul_not_positive; [|now apply not_negative_ltb].
    apply SFmul_not_positive; [now apply not_positive_ltb|].
    now apply math_sqrt_int_not_negative with lead. }
  split.
  - intros ss. unfold compute_safety_stock.
    destruct (Py.math_sqrt_int lead) as [root|e] eqn:Hroot; cbn [bind]; [|discriminate].
    rewrite (Hraw root eq_refl). now intros [= <-].
  - intros Hlead. destruct (math_sqrt_int_small Hlead) as [root Hroot].
    unfold compute_safety_stock. rewrite Hroot. cbn [bind].
    now rewrite (Hraw root Hroot).
Qed.


(** ** The suggestion of a policy *)

Lemma overstock_decision (cur rop eoq ss : Z) :
  0 <= eoq -> 0 <= ss ->
  (is_overstock (suggest cur rop eoq ss) = true
   <-> rop + (if 0 <? eoq then eoq else ss) < cur).
Proof.
  intros He Hs. unfold suggest.
  assert (Ht : rop <= rop + (if 0 <? eoq then eoq else ss))
    by (destruct (0 <? eoq); lia).
  destruct (cur <=? rop) eqn:Hc.
  - apply Z.leb_le in Hc.
    destruct (0 <? Z.max 0 _); cbn [is_overstock]; split; [discriminate|lia|discriminate|lia].
  - destruct (_ <? cur) eqn:Hlt; cbn [is_overstock].
    + apply Z.ltb_lt in Hlt. tauto.
    + apply Z.ltb_ge in Hlt. split; [discriminate|lia].
Qed.

(** X20: the suggestion of a returned policy is the text of the decision
    taken on the four numbers the policy itself carries. It starts with
    "Potential overstock" exactly when the current inventory exceeds the
    reorder point plus the order quantity (the safety stock when the order
    quantity is 0), and it starts with "Order " only when the current
    inventory does not exceed the reorder point. *)
Theorem policy_suggestion_from_fields (df : DataFrame) (pid : string)
    (fc : list float) (lead : Z) (sl h o : float) (p : InventoryPolicy) :
  calculate_inventory_optimization df pid fc lead sl h o = Ok p ->
  suggestion p
  = suggestion_text (suggest (current_inventory p) (reorder_point p)
                             (economic_order_quantity p) (safety_stock p))
  /\ (String.prefix "Potential overstock" (suggestion p) = true
      <-> reorder_point p
          + (if 0 <? economic_order_quantity p
             then economic_order_quantity p else safety_stock p)
          < current_inventory p)
  /\ (String.prefix "Order " (suggestion p) = true ->
      current_inventory p <= reorder_point p).
Proof.
  intros H.
  destruct (Optimizer.optimization_ok_inv _ _ _ _ _ _ _ H)
    as (data & ss & ddlt & eoq & cur & _ & Hss & _ & Heoq & _
        & -> & -> & -> & -> & _ & -> & _).
  assert (Hss0 : 0 <= ss)
    by (eapply Optimizer.compute_safety_stock_not_negative; eassumption).
  assert (Heoq0 : 0 <= eoq)
    by (eapply Optimizer.compute_eoq_not_negative; eassumption).
  split; [reflexivity|].
  rewrite SuggestionFacts.overstock_text_prefix, SuggestionFacts.order_text_prefix_iff.
  split.
  - now apply overstock_decision.
  - unfold suggest. destruct (cur <=? ddlt + ss) eqn:Hc.
    + intros _. now apply Z.leb_le.
    + destruct (_ <? cur); discriminate.
Qed.

End WithLibraries.

End OptimizerFacts.

(** * The endpoints *)

Module EndpointFacts.

Import SF FloatFacts.

Lemma sum_from_never_negative (l : list float) (acc : float) :
  not_negative (Prim2SF acc) ->
  Forall (fun v => (v <? 0)%float = false) l ->
  not_negative (Prim2SF (fold_left PrimFloat.add l acc)).
Proof.
  revert acc. induction l as [|v l IH]; intros acc Hacc Hl; simpl.
  - exact Hacc.
  - inversion Hl as [|v' l' Hv Hl']; subst.
    apply IH; [|assumption].
    rewrite add_spec. apply SFadd_not_negative; [assumption|].
    now apply not_negative_ltb.
Qed.

Lemma compute_ddlt_never_negative (fc : list float) (lead n : Z) :
  Forall (fun v => (v <? 0)%float = false) fc ->
  compute_ddlt fc lead = Ok n -> 0 <= n.
Proof.
  intros Hfc. unfold compute_ddlt.
  apply math_ceil_not_negative. unfold Py.sum.
  apply sum_from_never_negative; [exact I|].
  unfold Py.slice_to. destruct (_ <? 0); now apply Optimizer.Forall_prefix.
Qed.

Lemma fit_and_project_without_season (ts : list float) (model_type : string)
    (days sp1 sp2 : Z) {L : Libraries} :
  model_type <> "ExponentialSmoothing" ->
  fit_and_project ts model_type days sp1 = fit_and_project ts model_type days sp2.
Proof.
  intros Hm. apply String.eqb_neq in Hm. unfold fit_and_project. now rewrite Hm.
Qed.

(** ** The constraints of the query parameters *)

Lemma violations_none (checks : list (string * bool)) :
  violations checks = [] <-> forallb snd checks = true.
Proof.
  unfold violations. induction checks as [|[name b] l IH]; cbn; [tauto|].
  destruct b; cbn; [exact IH|]. split; discriminate.
Qed.

Lemma forecast_query_valid (days sp : Z) :
  violations (forecast_query_checks days sp) = [] <-> 0 < days /\ 1 < sp.
Proof.
  rewrite violations_none. unfold forecast_query_checks. cbn [forallb snd].
  rewrite !andb_true_iff, !Z.ltb_lt. intuition congruence.
Qed.

Lemma optimization_query_valid (lead : Z) (sl h o : float) (days sp : Z) :
  violations (optimization_query_checks lead sl h o days sp) = []
  <-> 0 < lead /\ (0 <=? sl)%float = true /\ (sl <=? 1)%float = true
      /\ (0 <=? h)%float = true /\ (0 <=? o)%float = true /\ 0 < days /\ 1 < sp.
Proof.
  rewrite violations_none. unfold optimization_query_checks. cbn [forallb snd].
  rewrite !andb_true_iff, !Z.ltb_lt. intuition congruence.
Qed.

Lemma forecast_query_decide (days sp : Z) :
  (0 < days /\ 1 < sp) \/ (days <= 0 \/ sp <= 1).
Proof. lia. Qed.

Lemma optimization_query_decide (lead : Z) (sl h o : float) (days sp : Z) :
  (0 < lead /\ (0 <=? sl)%float = true /\ (sl <=? 1)%float = true
   /\ (0 <=? h)%float = true /\ (0 <=? o)%float = true /\ 0 < days /\ 1 < sp)
  \/ (lead <= 0 \/ (0 <=? sl)%float = false \/ (sl <=? 1)%float = false
      \/ (0 <=? h)%float = false \/ (0 <=? o)%float = false
      \/ days <= 0 \/ sp <= 1).
Proof.
  destruct (Z_le_gt_dec lead 0) as [Hl|Hl]; [right; now left|].
  destruct (0 <=? sl)%float; [|right; right; now left].
  destruct (sl <=? 1)%float; [|right; right; right; now left].
  destruct (0 <=? h)%float; [|right; right; right; right; now left].
  destruct (0 <=? o)%float; [|right; right; right; right; right; now left].
  destruct (Z_le_gt_dec days 0) as [Hd|Hd];
    [right; right; right; right; right; right; now left|].
  destruct (Z_le_gt_dec sp 1) as [Hs|Hs];
    [right; right; right; right; right; right; now right|].
  left. repeat split; lia.
Qed.


Section WithLibraries.

Context {L : Libraries}.

(** ** What the engine raises *)

Lemma forecast_demand_http (ts : list float) (model_type : string) (days sp : Z)
    (e : exn) :
  forecast_demand ts model_type days sp = Raise e ->
  exists status_code d, e = HTTPException status_code d.
Proof.
  unfold forecast_demand.
  destruct (_ <? _); [intros [= <-]; eauto|].
  destruct (_ <=? _); [intros [= <-]; eauto|].
  destruct (fit_and_project _ _ _ _); [discriminate|intros [= <-]; eauto].
Qed.

Lemma forecast_demand_raises (ts : list float) (model_type : string) (days sp : Z)
    (e : exn) :
  forecast_demand ts model_type days sp = Raise e ->
  e = HTTPException 400 (InsufficientHistoryDetail (Py.len ts) model_type
                           (min_data_points model_type sp))
  \/ (days <= 0 /\ e = HTTPException 400 ForecastDaysDetail)
  \/ e = HTTPException 500 (ForecastInternalDetail model_type).
Proof.
  unfold forecast_demand.
  destruct (_ <? _); [intros [= <-]; now left|].
  destruct (days <=? 0) eqn:Hd.
  - intros [= <-]. right. left. split; [now apply Z.leb_le|reflexivity].
  - destruct (fit_and_project _ _ _ _); [discriminate|].
    intros [= <-]. right. now right.
Qed.

(** ** The two endpoints, by cases on the constraints *)

Lemma get_forecast_cases (df : DataFrame) (pid model_type : string) (days sp : Z) :
  (0 < days /\ 1 < sp
   /\ get_forecast df pid model_type days sp
      = forecast_handler df pid model_type days sp)
  \/ ((days <= 0 \/ sp <= 1)
      /\ exists name names,
           violations (forecast_query_checks days sp) = name :: names
           /\ get_forecast df pid model_type days sp
              = Failure 422 (String.concat ", " (name :: names))).
Proof.
  unfold get_forecast.
  destruct (violations (forecast_query_checks days sp)) as [|name names] eqn:Hv.
  - left. apply forecast_query_valid in Hv. tauto.
  - right. split; [|eauto].
    destruct (forecast_query_decide days sp) as [Hok|Hbad]; [|exact Hbad].
    apply forecast_query_valid in Hok. congruence.
Qed.

Lemma get_optimization_metrics_cases (df : DataFrame) (pid model_type : string)
    (lead : Z) (sl h o : float) (days sp : Z) :
  (0 < lead /\ (0 <=? sl)%float = true /\ (sl <=? 1)%float = true
   /\ (0 <=? h)%float = true /\ (0 <=? o)%float = true /\ 0 < days /\ 1 < sp
   /\ get_optimization_metrics df pid model_type lead sl h o days sp
      = optimization_handler df pid model_type lead sl h o days sp)
  \/ ((lead <= 0 \/ (0 <=? sl)%float = false \/ (sl <=? 1)%float = false
       \/ (0 <=? h)%float = false \/ (0 <=? o)%float = false
       \/ days <= 0 \/ sp <= 1)
      /\ exists name names,
           violations (optimization_query_checks lead sl h o days sp) = name :: names
           /\ get_optimization_metrics df pid model_type lead sl h o days sp
              = Failure 422 (String.concat ", " (name :: names))).
Proof.
  unfold get_optimization_metrics.
  destruct (violations (optimization_query_checks lead sl h o days sp))
    as [|name names] eqn:Hv.
  - left. apply optimization_query_valid in Hv. tauto.
  - right. split; [|eauto].
    destruct (optimization_query_decide lead sl h o days sp) as [Hok|Hbad];
      [|exact Hbad].
    apply optimization_query_valid in Hok. congruence.
Qed.

(** ** The bodies of the two endpoints *)

Lemma forecast_handler_failure (df : DataFrame) (pid model_type : string)
    (days sp c : Z) (t : string) :
  forecast_handler df pid model_type days sp = Failure c t ->
  exists d,
    t = detail_text d
    /\ (get_product_data df pid = Raise (HTTPException c d)
        \/ exists data,
             get_product_data df pid = Ok data
             /\ forecast_demand (snd data) model_type days sp
                = Raise (HTTPException c d)).
Proof.
  unfold forecast_handler.
  destruct (get_product_data df pid) as [data|e] eqn:Hdata; cbn [bind].
  - cbv zeta.
    destruct (forecast_demand (snd data) model_type days sp) as [fc|e] eqn:Hfc;
      cbn [bind]; [discriminate|].
    destruct (forecast_demand_http _ _ _ _ Hfc) as (c' & d' & ->).
    intros [= <- <-]. exists d'. split; [reflexivity|]. right. now exists data.
  - destruct (@DataAccess.get_product_data_raises _ _ _ Hdata) as [-> | [-> | ->]];
      intros [= <- <-]; eexists; (split; [|now left]); reflexivity.
Qed.

Lemma optimization_handler_failure (df : DataFrame) (pid model_type : string)
    (lead : Z) (sl h o : float) (days sp c : Z) (t : string) :
  optimization_handler df pid model_type lead sl h o days sp = Failure c t ->
  exists d,
    t = detail_text d
    /\ (get_product_data df pid = Raise (HTTPException c d)
        \/ (exists data,
              get_product_data df pid = Ok data
              /\ forecast_demand (snd data) model_type days sp
                 = Raise (HTTPException c d))
        \/ (exists data e0,
              get_product_data df pid = Ok data
              /\ In e0 numeric_errors
              /\ c = 500 /\ d = OptimizationInternalDetail (exn_message e0))).
Proof.
  unfold optimization_handler.
  destruct (get_product_data df pid) as [data|e] eqn:Hdata; cbn [bind].
  - cbv zeta.
    destruct (forecast_demand (snd data) model_type days sp) as [fc|e] eqn:Hfc;
      cbn [bind].
    + destruct (calculate_inventory_optimization df pid fc lead sl h o)
        as [p|e] eqn:Hp; cbn [bind]; [discriminate|].
      destruct (@OptimizerFacts.optimization_raise_cases _ _ _ _ _ _ _ _ _ Hp)
        as [Hraise | (data' & e0 & _ & _ & Hnum & ->)]; [congruence|].
      intros [= <- <-]. exists (OptimizationInternalDetail (exn_message e0)).
      split; [reflexivity|]. right. right.
      exists data, e0. repeat split. exact Hnum.
    + destruct (forecast_demand_http _ _ _ _ Hfc) as (c' & d' & ->).
      intros [= <- <-]. exists d'. split; [reflexivity|]. right. left.
      now exists data.
  - destruct (@DataAccess.get_product_data_raises _ _ _ Hdata) as [-> | [-> | ->]];
      intros [= <- <-]; eexists; (split; [|now left]); reflexivity.
Qed.

Lemma data_error_status (df : DataFrame) (pid : string) (c : Z) (d : detail) :
  get_product_data df pid = Raise (HTTPException c d) ->
  c = 503 \/ c = 404 \/ (c = 400 /\ d = NoValidUnitsSoldDetail pid).
Proof.
  intros H.
  destruct (@DataAccess.get_product_data_raises _ _ _ H) as [He | [He | He]];
    injection He as -> ->; tauto.
Qed.

Lemma forecast_error_status (ts : list float) (model_type : string) (days sp c : Z)
    (d : detail) :
  forecast_demand ts model_type days sp = Raise (HTTPException c d) ->
  (c = 400 /\ d = InsufficientHistoryDetail (Py.len ts) model_type
                    (min_data_points model_type sp))
  \/ (c = 400 /\ d = ForecastDaysDetail /\ days <= 0)
  \/ c = 500.
Proof.
  intros H.
  destruct (forecast_demand_raises _ _ _ _ H) as [He | [[Hd He] | He]];
    injection He as -> ->; tauto.
Qed.

Lemma forecast_handler_status (df : DataFrame) (pid model_type : string)
    (days sp c : Z) (t : string) :
  forecast_handler df pid model_type days sp = Failure c t ->
  c = 400 \/ c = 404 \/ c = 500 \/ c = 503.
Proof.
  intros H.
  destruct (forecast_handler_failure _ _ _ _ _ H) as (d & _ & [Hg | (data & _ & Hf)]).
  - destruct (data_error_status _ _ Hg) as [-> | [-> | [-> _]]]; tauto.
  - destruct (forecast_error_status _ _ _ _ Hf) as [[-> _] | [[-> _] | ->]]; tauto.
Qed.

Lemma optimization_handler_status (df : DataFrame) (pid model_type : string)
    (lead : Z) (sl h o : float) (days sp c : Z) (t : string) :
  optimization_handler df pid model_type lead sl h o days sp = Failure c t ->
  c = 400 \/ c = 404 \/ c = 500 \/ c = 503.
Proof.
  intros H.
  destruct (optimization_handler_failure _ _ _ _ _ _ _ _ _ H)
    as (d & _ & [Hg | [(data & _ & Hf) | (data & e0 & _ & _ & -> & _)]]).
  - destruct (data_error_status _ _ Hg) as [-> | [-> | [-> _]]]; tauto.
  - destruct (forecast_error_status _ _ _ _ Hf) as [[-> _] | [[-> _] | ->]]; tauto.
  - tauto.
Qed.

(** With a positive horizon no step answers the 400 of the horizon check. *)
Lemma no_horizon_error (df : DataFrame) (pid model_type : string) (days sp : Z)
    (d : detail) :
  0 < days ->
  detail_text d = "Forecast days must be a positive integer." ->
  get_product_data df pid <> Raise (HTTPException 400 d)
  /\ forall ts, forecast_demand ts model_type days sp <> Raise (HTTPException 400 d).
Proof.
  intros Hd Ht. split.
  - intros Hg.
    destruct (data_error_status _ _ Hg) as [Hc | [Hc | [_ ->]]]; try discriminate Hc.
    cbn [detail_text String.append] in Ht. discriminate Ht.
  - intros ts Hf.
    destruct (forecast_error_status _ _ _ _ Hf) as [[_ ->] | [(_ & _ & Hle) | Hc]];
      [|lia|discriminate Hc].
    cbn [detail_text String.append] in Ht. discriminate Ht.
Qed.

Lemma forecast_handler_horizon (df : DataFrame) (pid model_type : string)
    (days sp : Z) :
  0 < days ->
  forecast_handler df pid model_type days sp
  <> Failure 400 "Forecast days must be a positive integer.".
Proof.
  intros Hd H.
  destruct (forecast_handler_failure _ _ _ _ _ H) as (d & Ht & Hcase).
  destruct (@no_horizon_error df pid model_type days sp d Hd (eq_sym Ht)) as [Hg Hf].
  destruct Hcase as [H1 | (data & _ & H1)]; [now apply Hg|now apply (Hf (snd data))].
Qed.

Lemma optimization_handler_horizon (df : DataFrame) (pid model_type : string)
    (lead : Z) (sl h o : float) (days sp : Z) :
  0 < days ->
  optimization_handler df pid model_type lead sl h o days sp
  <> Failure 400 "Forecast days must be a positive integer.".
Proof.
  intros Hd H.
  destruct (optimization_handler_failure _ _ _ _ _ _ _ _ _ H) as (d & Ht & Hcase).
  destruct (@no_horizon_error df pid model_type days sp d Hd (eq_sym Ht)) as [Hg Hf].
  destruct Hcase as [H1 | [(data & _ & H1) | (data & e0 & _ & _ & Hc & _)]];
    [now apply Hg|now apply (Hf (snd data))|discriminate Hc].
Qed.

(** X15: every policy the optimization endpoint returns has a reorder point
    equal to the demand during lead time plus the safety stock, and a safety
    stock, an order quantity, a demand during lead time and a reorder point
    that are not negative, whatever the libraries compute: the forecast it
    is given is the engine's own, which holds no negative value. The current
    inventory is not negative when no recorded level is. *)
Theorem endpoint_policy_invariant (df : DataFrame) (pid model_type : string)
    (lead : Z) (sl h o : float) (days sp : Z) (r : OptimizationResponse) :
  get_optimization_metrics df pid model_type lead sl h o days sp = Success r ->
  reorder_point (optimization_policy r)
  = demand_during_lead_time (optimization_policy r) + safety_stock (optimization_policy r)
  /\ 0 <= safety_stock (optimization_policy r)
  /\ 0 <= economic_order_quantity (optimization_policy r)
  /\ 0 <= demand_during_lead_time (optimization_policy r)
  /\ 0 <= reorder_point (optimization_policy r)
  /\ (Forall (fun row => (Inventory_Level row <? 0)%float = false) df ->
      0 <= current_inventory (optimization_policy r)).
Proof.
  unfold get_optimization_metrics.
  destruct (violations _); [|unfold unprocessable; discriminate].
  unfold optimization_handler.
  destruct (get_product_data df pid) as [data|e] eqn:Hdata; cbn [bind];
    [|destruct e; discriminate].
  cbv zeta.
  destruct (forecast_demand (snd data) model_type days sp) as [fc|e] eqn:Hfc;
    cbn [bind]; [|destruct e; discriminate].
  destruct (calculate_inventory_optimization df pid fc lead sl h o) as [p|e] eqn:Hp;
    cbn [bind]; [|destruct e; discriminate].
  intros [= <-]. cbn [optimization_policy].
  pose proof (ForecastFacts.forecast_values_not_negative _ _ _ _ Hfc) as Hnn.
  destruct (Optimizer.optimization_ok_inv _ _ _ _ _ _ _ Hp)
    as (data' & ss & ddlt & eoq & cur & Hdata' & Hss & Hddlt & Heoq & Hcur
        & -> & -> & -> & -> & -> & _).
  assert (Hss0 : 0 <= ss) by (eapply Optimizer.compute_safety_stock_not_negative; eassumption).
  assert (Hd0 : 0 <= ddlt) by (eapply compute_ddlt_never_negative; eassumption).
  split; [reflexivity|]. split; [exact Hss0|]. split; [|split; [exact Hd0|split; [lia|]]].
  - eapply Optimizer.compute_eoq_not_negative; eassumption.
  - intros Hdf.
    eapply Optimizer.compute_current_inventory_not_negative; [|exact Hcur].
    rewrite Forall_forall in *. intros row Hrow.
    apply Hdf. eapply Optimizer.get_product_data_rows; eassumption.
Qed.

(** X16: both endpoints check the constraints of their query parameters
    first and look the product up next. A request that violates a constraint
    is answered 422, and with the same answer whatever the data set, the
    product and the model type. A request that passes is answered 503 on an
    empty data set and 404, with the id in the detail, for a product id no
    row carries, whatever the model type. *)
Theorem endpoints_validate_then_look_up (df : DataFrame) (pid model_type : string)
    (lead : Z) (sl h o : float) (days sp : Z) :
  (days <= 0 \/ sp <= 1 ->
   (exists detail, get_forecast df pid model_type days sp = Failure 422 detail)
   /\ (forall df' pid' model_type',
         get_forecast df' pid' model_type' days sp
         = get_forecast df pid model_type days sp))
  /\ (lead <= 0 \/ (0 <=? sl)%float = false \/ (sl <=? 1)%float = false
      \/ (0 <=? h)%float = false \/ (0 <=? o)%float = false
      \/ days <= 0 \/ sp <= 1 ->
      (exists detail,
         get_optimization_metrics df pid model_type lead sl h o days sp
         = Failure 422 detail)
      /\ (forall df' pid' model_type',
            get_optimization_metrics df' pid' model_type' lead sl h o days sp
            = get_optimization_metrics df pid model_type lead sl h o days sp))
  /\ (0 < days -> 1 < sp ->
      (df = [] ->
       get_forecast df pid model_type days sp
       = Failure 503 "Inventory data is currently unavailable.")
      /\ (df <> [] -> (forall r, In r df -> Product_ID r <> pid) ->
          get_forecast df pid model_type days sp
          = Failure 404 ("Product ID '" ++ pid ++ "' not found in dataset.")))
  /\ (0 < lead -> (0 <=? sl)%float = true -> (sl <=? 1)%float = true ->
      (0 <=? h)%float = true -> (0 <=? o)%float = true -> 0 < days -> 1 < sp ->
      (df = [] ->
       get_optimization_metrics df pid model_type lead sl h o days sp
       = Failure 503 "Inventory data is currently unavailable.")
      /\ (df <> [] -> (forall r, In r df -> Product_ID r <> pid) ->
          get_optimization_metrics df pid model_type lead sl h o days sp
          = Failure 404 ("Product ID '" ++ pid ++ "' not found in dataset."))).
Proof.
  split; [|split; [|split]].
  - intros Hbad.
    destruct (get_forecast_cases df pid model_type days sp)
      as [(Hd & Hs & _) | (_ & name & names & Hv & Hg)]; [lia|].
    split; [eauto|]. intros df' pid' model_type'.
    unfold get_forecast. now rewrite Hv.
  - intros Hbad.
    destruct (get_optimization_metrics_cases df pid model_type lead sl h o days sp)
      as [(Hl & Hs1 & Hs2 & Hh & Ho & Hd & Hs & _) | (_ & name & names & Hv & Hg)].
    + exfalso. intuition (try lia; congruence).
    + split; [eauto|]. intros df' pid' model_type'.
      unfold get_optimization_metrics. now rewrite Hv.
  - intros Hd Hs.
    destruct (get_forecast_cases df pid model_type days sp)
      as [(_ & _ & ->) | (Hbad & _)]; [|lia].
    unfold forecast_handler. split.
    + intros Hdf. now rewrite DataAccess.get_product_data_unavailable by assumption.
    + intros Hdf Hno. now rewrite DataAccess.get_product_data_not_found by assumption.
  - intros Hl Hs1 Hs2 Hh Ho Hd Hs.
    destruct (get_optimization_metrics_cases df pid model_type lead sl h o days sp)
      as [(_ & _ & _ & _ & _ & _ & _ & ->) | (Hbad & _)].
    + unfold optimization_handler. split.
      * intros Hdf. now rewrite DataAccess.get_product_data_unavailable by assumption.
      * intros Hdf Hno.
        now rewrite DataAccess.get_product_data_not_found by assumption.
    + exfalso. intuition (try lia; congruence).
Qed.


(** X18: the statuses of the two endpoints. Neither ever answers with a
    status other than 400, 404, 422, 500 or 503. Each answers 422 exactly
    when a query parameter violates its constraint: a horizon that is not
    positive or a seasonal period that is not above 1, and for the
    optimization endpoint also a lead time that is not positive, a service
    level outside the interval from 0 to 1 or a negative cost. So the 400 of
    the engine for a horizon that is not positive is never the answer of an
    endpoint. *)
Theorem endpoint_status_codes (df : DataFrame) (pid model_type : string)
    (lead : Z) (sl h o : float) (days sp : Z) :
  (forall status_code detail,
     get_forecast df pid model_type days sp = Failure status_code detail ->
     status_code = 400 \/ status_code = 404 \/ status_code = 422
     \/ status_code = 500 \/ status_code = 503)
  /\ (forall status_code detail,
      get_optimization_metrics df pid model_type lead sl h o days sp
      = Failure status_code detail ->
      status_code = 400 \/ status_code = 404 \/ status_code = 422
      \/ status_code = 500 \/ status_code = 503)
  /\ ((exists detail, get_forecast df pid model_type days sp = Failure 422 detail)
      <-> days <= 0 \/ sp <= 1)
  /\ ((exists detail,
         get_optimization_metrics df pid model_type lead sl h o days sp
         = Failure 422 detail)
      <-> lead <= 0 \/ (0 <=? sl)%float = false \/ (sl <=? 1)%float = false
          \/ (0 <=? h)%float = false \/ (0 <=? o)%float = false
          \/ days <= 0 \/ sp <= 1)
  /\ get_forecast df pid model_type days sp
     <> Failure 400 "Forecast days must be a positive integer."
  /\ get_optimization_metrics df pid model_type lead sl h o days sp
     <> Failure 400 "Forecast days must be a positive integer.".
Proof.
  destruct (get_forecast_cases df pid model_type days sp)
    as [(Hd & Hs & Hf) | (Hfbad & fname & fnames & _ & Hf)];
    destruct (get_optimization_metrics_cases df pid model_type lead sl h o days sp)
      as [(Hl & Hs1 & Hs2 & Hh & Ho & Hd' & Hs' & Hm)
         | (Hmbad & mname & mnames & _ & Hm)];
    rewrite Hf, Hm; clear Hf Hm.
  - split; [|split; [|split; [|split; [|split]]]].
    + intros c t H. apply forecast_handler_status in H. tauto.
    + intros c t H. apply optimization_handler_status in H. tauto.
    + split; [|lia]. intros [t H]. apply forecast_handler_status in H. lia.
    + split; [|intros Hbad; exfalso; intuition (try lia; congruence)].
      intros [t H]. apply optimization_handler_status in H. lia.
    + now apply forecast_handler_horizon.
    + now apply optimization_handler_horizon.
  - split; [|split; [|split; [|split; [|split]]]].
    + intros c t H. apply forecast_handler_status in H. tauto.
    + intros c t [= <- _]. tauto.
    + split; [|lia]. intros [t H]. apply forecast_handler_status in H. lia.
    + split; [intros _; exact Hmbad|eauto].
    + now apply forecast_handler_horizon.
    + discriminate.
  - lia.
  - split; [|split; [|split; [|split; [|split]]]].
    + intros c t [= <- _]. tauto.
    + intros c t [= <- _]. tauto.
    + split; [intros _; exact Hfbad|eauto].
    + split; [intros _; exact Hmbad|eauto].
    + discriminate.
    + discriminate.
Qed.

(** X19: for every model type but the exponential smoothing the seasonal
    period is ignored once it passes its constraint: both endpoints answer
    the same for any two seasonal periods above 1. *)
Theorem seasonal_periods_ignored (df : DataFrame) (pid model_type : string)
    (lead : Z) (sl h o : float) (days sp1 sp2 : Z) :
  model_type <> "ExponentialSmoothing" -> 1 < sp1 -> 1 < sp2 ->
  get_forecast df pid model_type days sp1 = get_forecast df pid model_type days sp2
  /\ get_optimization_metrics df pid model_type lead sl h o days sp1
     = get_optimization_metrics df pid model_type lead sl h o days sp2.
Proof.
  intros Hm Hs1 Hs2.
  assert (Hf : forall ts, forecast_demand ts model_type days sp1
                          = forecast_demand ts model_type days sp2).
  { intros ts. unfold forecast_demand, min_data_points.
    rewrite (fit_and_project_without_season ts days sp1 sp2 Hm).
    apply String.eqb_neq in Hm. now rewrite Hm. }
  assert (Hs : seasonal_periods_if_used model_type sp1
               = seasonal_periods_if_used model_type sp2).
  { unfold seasonal_periods_if_used. apply String.eqb_neq in Hm. now rewrite Hm. }
  assert (Hfh : forecast_handler df pid model_type days sp1
                = forecast_handler df pid model_type days sp2).
  { unfold forecast_handler.
    destruct (get_product_data df pid) as [data|e]; cbn [bind]; [|reflexivity].
    cbv zeta. now rewrite Hf, Hs. }
  assert (Hoh : optimization_handler df pid model_type lead sl h o days sp1
                = optimization_handler df pid model_type lead sl h o days sp2).
  { unfold optimization_handler.
    destruct (get_product_data df pid) as [data|e]; cbn [bind]; [|reflexivity].
    cbv zeta. now rewrite Hf, Hs. }
  apply Z.ltb_lt in Hs1, Hs2.
  unfold get_forecast, get_optimization_metrics, forecast_query_checks,
    optimization_query_checks.
  rewrite Hs1, Hs2, Hfh, Hoh. split; reflexivity.
Qed.

End WithLibraries.

End EndpointFacts.

(** * Runs behind the further facts *)

Module ExtraRuns.

Lemma zero_lead_run :
  calculate_inventory_optimization (L := Bench.libraries)
    Bench.scenario_history "P1" Bench.scenario_forecast 0 0x1.e666666666666p-1 1.5 50
  = Ok Runs.zero_lead_policy.
Proof. vm_compute. reflexivity. Qed.

Lemma no_forecast_run :
  calculate_inventory_optimization (L := Bench.libraries)
    Bench.scenario_history "P1" [] 7 0x1.e666666666666p-1 1.5 50
  = Ok Runs.no_forecast_policy.
Proof. vm_compute. reflexivity. Qed.

Lemma scenario_endpoint_run :
  get_optimization_metrics (L := Bench.libraries)
    Bench.scenario_history "P1" "ARIMA" 7 0x1.e666666666666p-1 1.5 50 30 7
  = Success Runs.scenario_response.
Proof. vm_compute. reflexivity. Qed.

Lemma scenario_history_not_empty : Bench.scenario_history <> [].
Proof. vm_compute. discriminate. Qed.

Lemma scenario_history_lacks_P9 :
  forall r, In r Bench.scenario_history -> Product_ID r <> "P9".
Proof.
  intros r Hr. unfold Bench.scenario_history, Bench.constant_history in Hr.
  apply in_map_iff in Hr as (i & <- & _). discriminate.
Qed.


(** A request with a horizon of 0 is refused before the data is read. *)
Lemma refused_horizon_run :
  get_forecast (L := Bench.libraries) Bench.scenario_history "P1" "ARIMA" 0 7
  = Failure 422 "forecast_days"
  /\ get_optimization_metrics (L := Bench.libraries)
       [] "P1" "ARIMA" 0 2 (-1) 50 0 1
     = Failure 422 "lead_time_days, service_level, holding_cost, forecast_days, seasonal_periods".
Proof. split; vm_compute; reflexivity. Qed.

Lemma negative_lead_time_fails_witness :
  calculate_inventory_optimization (L := Bench.libraries)
    Bench.scenario_history "P1" Bench.scenario_forecast (-3) 0x1.e666666666666p-1 1.5 50
  = Raise (HTTPException 500 (OptimizationInternalDetail "math domain error")).
Proof.
  refine (@OptimizerFacts.negative_lead_time_fails Bench.libraries
            Bench.scenario_history "P1" Bench.scenario_forecast (-3)
            0x1.e666666666666p-1 1.5 50
            (Bench.scenario_history,
             resample_D_sum (units_sold_series Bench.scenario_history)) _ _).
  - split; [vm_compute; reflexivity|lia].
  - vm_compute. reflexivity.
Defined.

Lemma zero_lead_time_policy_witness :
  safety_stock Runs.zero_lead_policy = 0
  /\ demand_during_lead_time Runs.zero_lead_policy = 0
  /\ reorder_point Runs.zero_lead_policy = 0.
Proof.
  exact (@OptimizerFacts.zero_lead_time_policy Bench.libraries _ _ _ _ _ _ _
           zero_lead_run).
Defined.

Lemma empty_forecast_policy_witness :
  demand_during_lead_time Runs.no_forecast_policy = 0
  /\ economic_order_quantity Runs.no_forecast_policy = 0
  /\ reorder_point Runs.no_forecast_policy = safety_stock Runs.no_forecast_policy
  /\ annual_demand_method (assumptions_used Runs.no_forecast_policy)
     = "N/A (Empty Forecast)".
Proof.
  exact (@OptimizerFacts.empty_forecast_policy Bench.libraries _ _ _ _ _ _ _
           no_forecast_run).
Defined.

Lemma low_service_level_no_safety_stock_witness :
  compute_safety_stock (L := Bench.libraries) 0.5 7 2.5 = Ok 0.
Proof.
  refine (proj2 (@OptimizerFacts.low_service_level_no_safety_stock Bench.libraries
                   0.5 7 2.5 _ _) _).
  - reflexivity.
  - reflexivity.
  - lia.
Defined.

Lemma policy_suggestion_from_fields_witness :
  suggestion Runs.no_forecast_policy
  = suggestion_text (suggest (current_inventory Runs.no_forecast_policy)
                             (reorder_point Runs.no_forecast_policy)
                             (economic_order_quantity Runs.no_forecast_policy)
                             (safety_stock Runs.no_forecast_policy)).
Proof.
  exact (proj1 (@OptimizerFacts.policy_suggestion_from_fields Bench.libraries
                  _ _ _ _ _ _ _ _ no_forecast_run)).
Defined.

Lemma endpoint_policy_invariant_witness :
  reorder_point (optimization_policy Runs.scenario_response)
  = demand_during_lead_time (optimization_policy Runs.scenario_response)
    + safety_stock (optimization_policy Runs.scenario_response)
  /\ 0 <= safety_stock (optimization_policy Runs.scenario_response)
  /\ 0 <= economic_order_quantity (optimization_policy Runs.scenario_response)
  /\ 0 <= demand_during_lead_time (optimization_policy Runs.scenario_response)
  /\ 0 <= reorder_point (optimization_policy Runs.scenario_response)
  /\ (Forall (fun row => (Inventory_Level row <? 0)%float = false)
             Bench.scenario_history ->
      0 <= current_inventory (optimization_policy Runs.scenario_response)).
Proof.
  exact (@EndpointFacts.endpoint_policy_invariant Bench.libraries _ _ _ _ _ _ _ _ _ _
           scenario_endpoint_run).
Defined.

Lemma endpoints_validate_then_look_up_witness :
  get_optimization_metrics (L := Bench.libraries)
    Bench.scenario_history "P9" "ARIMA" 7 0x1.e666666666666p-1 1.5 50 30 7
  = Failure 404 "Product ID 'P9' not found in dataset.".
Proof.
  refine (proj2 (proj2 (proj2 (proj2
            (@EndpointFacts.endpoints_validate_then_look_up Bench.libraries
               Bench.scenario_history "P9" "ARIMA" 7 0x1.e666666666666p-1 1.5 50 30 7)))
            _ _ _ _ _ _ _)
            scenario_history_not_empty scenario_history_lacks_P9);
    first [lia | reflexivity].
Defined.


Lemma seasonal_periods_ignored_witness :
  get_forecast (L := Bench.libraries) Bench.scenario_history "P1" "ARIMA" 3 7
  = get_forecast (L := Bench.libraries) Bench.scenario_history "P1" "ARIMA" 3 14.
Proof.
  refine (proj1 (@EndpointFacts.seasonal_periods_ignored Bench.libraries
                   Bench.scenario_history "P1" "ARIMA" 7 0.5 1.5 50 3 7 14 _ _ _)).
  - discriminate.
  - lia.
  - lia.
Defined.

End ExtraRuns.
